(** * Dodging Simulator: the main game object of [game_main.py]

    A shallow embedding of [DodgingSimulatorGame]: asset loading, mode
    selection, run initialisation, projectile spawning, rendering and the main
    loop.  Python objects that are mutated in place are fields of one [Game]
    record that is threaded through every method; a method that can raise
    returns the state it leaves behind together with the way it completed.

    Collaborators that live in other packages of the project
    ([patterns.strategy], [patterns.observer], [patterns.state],
    [managers.score_manager], [config]) are either parameters or small models
    written from the design document; each such model says so. *)

From Stdlib Require Import ZArith QArith Qcanon Qround.
From stdpp Require Import base strings gmap list sorting pretty numbers.

Open Scope Z_scope.

(** ** Python completions *)

Inductive Exn :=
| ValueError (msg : string)
| PygameError (msg : string)
| FileNotFoundError (msg : string)
| OtherException (msg : string).

Inductive Completion (A : Type) :=
| Returned (a : A)
| Raised (e : Exn).
Arguments Returned {A} a.
Arguments Raised {A} e.

Global Instance Exn_eq_dec : EqDecision Exn.
Proof. solve_decision. Defined.

(** ** pygame values *)

Definition Color : Type := Z * Z * Z.

Inductive SurfaceContent :=
| ImagePixels (path : string)
| SolidFill (c : Color)
| Blank.

Record Surface := mkSurface {
  surf_size : Z * Z;
  surf_content : SurfaceContent
}.

(** A pygame event: its integer type and, for key events, the key. *)
Record Event := mkEvent {
  ev_type : Z;
  ev_key : Z
}.

(** [pygame.QUIT] (its pygame 2 value; nothing below depends on the number). *)
Definition pygame_QUIT : Z := 256.

(** The calls into pygame whose outcome the game does not control. *)
Record Pygame := mkPygame {
  image_load : string → Completion Surface;
  surface_convert : Surface → Completion Surface;
  transform_scale : Surface → Z * Z → Completion Surface
}.

(** [pygame.Surface(size)] followed by [fill(color)]. *)
Definition new_surface (size : Z * Z) : Surface := mkSurface size Blank.
Definition surface_fill (c : Color) (s : Surface) : Surface :=
  mkSurface (surf_size s) (SolidFill c).

(** ** [Dodging_Simulator.config] *)

Record Config := mkConfig {
  GAME_WIDTH : Z;
  GAME_HEIGHT : Z;
  BACKGROUND_COLOR : Color;
  BACKGROUND_IMAGE : string;
  GAME_OVER_OVERLAY : Color * Z;
  HUD_TEXT_COLOR : Color
}.

(** ** Entities *)

Record Player := mkPlayer {
  player_id : nat;
  health : Z;
  max_health : Z;
  player_pos : Z * Z
}.

Record Projectile := mkProjectile {
  proj_type : string;
  proj_pos : Z * Z;
  proj_vel : Z * Z;
  proj_damage : Z
}.

Record WarningIndicator := mkWarningIndicator {
  warn_pos : Z * Z;
  warn_countdown : Qc;
  warn_type : string
}.

(** ** Difficulty strategies ([patterns.strategy]) *)

Module Strategy.

(** The two strategy classes that [set_game_mode] instantiates. *)
Inductive t := NormalModeStrategy | NightmareModeStrategy.

Global Instance eq_dec : EqDecision t.
Proof. solve_decision. Defined.

(** Starting stats of the player a strategy creates. *)
Record PlayerStats := mkPlayerStats {
  start_health : Z;
  start_max_health : Z;
  start_pos : Z * Z
}.

(** The bodies of the strategy methods are not part of this file: the spawn
    interval (milliseconds, as a function of the elapsed seconds) and the
    starting player of each strategy are a dispatch table. *)
Record Table := mkTable {
  spawn_interval : t → Qc → Z;
  starting_player : t → PlayerStats
}.

(** Modelled from the spec: [get_mode_name] of a strategy, the mode names
    being "normal" and "nightmare" ([render_game] compares against them). *)
Definition get_mode_name (s : t) : string :=
  match s with
  | NormalModeStrategy => "normal"
  | NightmareModeStrategy => "nightmare"
  end.

End Strategy.

(** Modelled from the spec: [GameModeContext] of [patterns.strategy], which
    holds the one active strategy; every spawn and factory call is routed
    through it to that strategy. *)
Module GameModeContext.

Record t := mk { strategy : Strategy.t }.

(** What becomes of a request to switch while a run is in progress: it is
    rejected with an exception, or deferred.  The design document asks for
    one of the two and leaves the choice, and the exception, open. *)
Inductive MidRunPolicy :=
| RejectMidRun (e : Exn)
| DeferMidRun.

(** Modelled from the spec: [set_strategy] replaces the active strategy when
    no run is in progress; while one is, the request is rejected or deferred
    and the active strategy stays as it is (section 4.2).  How the context
    learns that a run is in progress is not written down: the caller hands
    it over. *)
Definition set_strategy (policy : MidRunPolicy) (run_in_progress : bool)
    (s : Strategy.t) (c : t) : Completion t :=
  if run_in_progress then
    match policy with
    | RejectMidRun e => Raised e
    | DeferMidRun => Returned c
    end
  else Returned (mk s).

Definition get_spawn_interval (tbl : Strategy.Table) (c : t) (elapsed : Qc) : Z :=
  Strategy.spawn_interval tbl (strategy c) elapsed.

Definition get_mode_name (c : t) : string :=
  Strategy.get_mode_name (strategy c).

Definition create_player (tbl : Strategy.Table) (c : t) (fresh : nat) : Player :=
  let st := Strategy.starting_player tbl (strategy c) in
  mkPlayer fresh (Strategy.start_health st) (Strategy.start_max_health st)
           (Strategy.start_pos st).

End GameModeContext.

(** ** Events and observers ([patterns.observer]) *)

Inductive GameEvent :=
| ProjectileDodged
| PlayerHit
| HeartRestored
| RunEnded (elapsed : Qc) (mode : string).

(** Modelled from the spec: [StatsObserver], the per-run counters; [reset]
    zeroes both, [ProjectileDodged] and [HeartRestored] each add one to their
    counter, every other event leaves them alone. *)
Module StatsObserver.

Record t := mk {
  hearts_restored : Z;
  projectiles_dodged : Z
}.

Definition reset (s : t) : t := mk 0 0.

Definition on_event (e : GameEvent) (s : t) : t :=
  match e with
  | ProjectileDodged => mk (hearts_restored s) (projectiles_dodged s + 1)
  | HeartRestored => mk (hearts_restored s + 1) (projectiles_dodged s)
  | PlayerHit | RunEnded _ _ => s
  end.

End StatsObserver.

(** Modelled from the spec: [ScoreManager] of [managers.score_manager], the
    leaderboard: a mapping from mode name to elapsed-time scores, of which the
    best [n] are read back in descending order and the best [top_n] are kept
    on insertion.  Scores are finite floats of seconds; they are rationals
    here, on which the order is the same. *)
Module ScoreManager.

Abbreviation t := (gmap string (list Qc)).

(** [a] ranks before [b]: larger times first. *)
Definition ranks_before (a b : Qc) : Prop := (b ≤ a)%Qc.

Global Instance ranks_before_dec : RelDecision ranks_before.
Proof. intros a b. unfold ranks_before. apply _. Defined.

Definition sort_desc (l : list Qc) : list Qc := merge_sort ranks_before l.

Definition scores_of (mode : string) (sm : t) : list Qc :=
  default [] (sm !! mode).

(** A read: the manager is handed back as it was. *)
Definition top_scores (n : nat) (mode : string) (sm : t) : list Qc * t :=
  (take n (sort_desc (scores_of mode sm)), sm).

Definition top_n : nat := 5.

Definition add_score (mode : string) (score : Qc) (sm : t) : t :=
  <[mode := take top_n (sort_desc (score :: scores_of mode sm))]> sm.

End ScoreManager.

(** The observers attached to the event manager, in attachment order. *)
Inductive ObserverRef := ScoreObserverRef | StatsObserverRef.

(** Modelled from the spec: the four states of the state machine of
    [patterns.state]. *)
Inductive ScreenState := Menu | Playing | GameOver | HallOfFame.

Global Instance ScreenState_eq_dec : EqDecision ScreenState.
Proof. solve_decision. Defined.

(** Modelled from the spec: the [GameState] singleton of [patterns.singleton]:
    the current mode name and the flag that keeps the loop going. *)
Module GameState.

Record t := mk {
  mode : string;
  game_running : bool
}.

Definition set_mode (m : string) (s : t) : t := mk m (game_running s).

End GameState.

(** ** The game object

    The attributes of [DodgingSimulatorGame].  An attribute that [__init__]
    has not assigned yet is [None].  [screen] and [final_score] belong to the
    inherited [GameContext] (modelled from the spec: the state the machine is
    in, and the elapsed time captured on entering game over).  The last three
    fields are the part of the process the methods act on: the timers
    registered with [pygame.time.set_timer] (event type to milliseconds), the
    lines printed so far, and the next unused object identity.  Attributes
    that no method below reads (window, fonts, menu screens, sound manager,
    clock, factory, config singleton) are left out. *)
Record Game := mkGame {
  background_image : option Surface;
  game_state : GameState.t;
  event_manager : list ObserverRef;
  stats_observer : StatsObserver.t;
  game_mode_context : GameModeContext.t;
  score_manager : ScoreManager.t;
  player : option Player;
  projectiles : list Projectile;
  warning_indicators : list WarningIndicator;
  running : bool;
  current_spawn_interval : option Z;
  screen : ScreenState;
  final_score : option Qc;
  timers : gmap Z Z;
  stdout : list string;
  next_object : nat
}.

(** Attribute assignment, one setter per attribute. *)
Definition set_background_image (v : option Surface) (g : Game) : Game :=
  mkGame v (game_state g) (event_manager g) (stats_observer g)
    (game_mode_context g) (score_manager g) (player g) (projectiles g)
    (warning_indicators g) (running g) (current_spawn_interval g) (screen g)
    (final_score g) (timers g) (stdout g) (next_object g).
Definition set_game_state (v : GameState.t) (g : Game) : Game :=
  mkGame (background_image g) v (event_manager g) (stats_observer g)
    (game_mode_context g) (score_manager g) (player g) (projectiles g)
    (warning_indicators g) (running g) (current_spawn_interval g) (screen g)
    (final_score g) (timers g) (stdout g) (next_object g).
Definition set_event_manager (v : list ObserverRef) (g : Game) : Game :=
  mkGame (background_image g) (game_state g) v (stats_observer g)
    (game_mode_context g) (score_manager g) (player g) (projectiles g)
    (warning_indicators g) (running g) (current_spawn_interval g) (screen g)
    (final_score g) (timers g) (stdout g) (next_object g).
Definition set_stats_observer (v : StatsObserver.t) (g : Game) : Game :=
  mkGame (background_image g) (game_state g) (event_manager g) v
    (game_mode_context g) (score_manager g) (player g) (projectiles g)
    (warning_indicators g) (running g) (current_spawn_interval g) (screen g)
    (final_score g) (timers g) (stdout g) (next_object g).
Definition set_game_mode_context (v : GameModeContext.t) (g : Game) : Game :=
  mkGame (background_image g) (game_state g) (event_manager g)
    (stats_observer g) v (score_manager g) (player g) (projectiles g)
    (warning_indicators g) (running g) (current_spawn_interval g) (screen g)
    (final_score g) (timers g) (stdout g) (next_object g).
Definition set_score_manager (v : ScoreManager.t) (g : Game) : Game :=
  mkGame (background_image g) (game_state g) (event_manager g)
    (stats_observer g) (game_mode_context g) v (player g) (projectiles g)
    (warning_indicators g) (running g) (current_spawn_interval g) (screen g)
    (final_score g) (timers g) (stdout g) (next_object g).
Definition set_player (v : option Player) (g : Game) : Game :=
  mkGame (background_image g) (game_state g) (event_manager g)
    (stats_observer g) (game_mode_context g) (score_manager g) v
    (projectiles g) (warning_indicators g) (running g)
    (current_spawn_interval g) (screen g) (final_score g) (timers g)
    (stdout g) (next_object g).
Definition set_projectiles (v : list Projectile) (g : Game) : Game :=
  mkGame (background_image g) (game_state g) (event_manager g)
    (stats_observer g) (game_mode_context g) (score_manager g) (player g) v
    (warning_indicators g) (running g) (current_spawn_interval g) (screen g)
    (final_score g) (timers g) (stdout g) (next_object g).
Definition set_warning_indicators (v : list WarningIndicator) (g : Game) : Game :=
  mkGame (background_image g) (game_state g) (event_manager g)
    (stats_observer g) (game_mode_context g) (score_manager g) (player g)
    (projectiles g) v (running g) (current_spawn_interval g) (screen g)
    (final_score g) (timers g) (stdout g) (next_object g).
Definition set_running (v : bool) (g : Game) : Game :=
  mkGame (background_image g) (game_state g) (event_manager g)
    (stats_observer g) (game_mode_context g) (score_manager g) (player g)
    (projectiles g) (warning_indicators g) v (current_spawn_interval g)
    (screen g) (final_score g) (timers g) (stdout g) (next_object g).
Definition set_current_spawn_interval (v : option Z) (g : Game) : Game :=
  mkGame (background_image g) (game_state g) (event_manager g)
    (stats_observer g) (game_mode_context g) (score_manager g) (player g)
    (projectiles g) (warning_indicators g) (running g) v (screen g)
    (final_score g) (timers g) (stdout g) (next_object g).
Definition set_screen (v : ScreenState) (g : Game) : Game :=
  mkGame (background_image g) (game_state g) (event_manager g)
    (stats_observer g) (game_mode_context g) (score_manager g) (player g)
    (projectiles g) (warning_indicators g) (running g)
    (current_spawn_interval g) v (final_score g) (timers g) (stdout g)
    (next_object g).
Definition set_timers (v : gmap Z Z) (g : Game) : Game :=
  mkGame (background_image g) (game_state g) (event_manager g)
    (stats_observer g) (game_mode_context g) (score_manager g) (player g)
    (projectiles g) (warning_indicators g) (running g)
    (current_spawn_interval g) (screen g) (final_score g) v (stdout g)
    (next_object g).
Definition set_stdout (v : list string) (g : Game) : Game :=
  mkGame (background_image g) (game_state g) (event_manager g)
    (stats_observer g) (game_mode_context g) (score_manager g) (player g)
    (projectiles g) (warning_indicators g) (running g)
    (current_spawn_interval g) (screen g) (final_score g) (timers g) v
    (next_object g).
Definition set_next_object (v : nat) (g : Game) : Game :=
  mkGame (background_image g) (game_state g) (event_manager g)
    (stats_observer g) (game_mode_context g) (score_manager g) (player g)
    (projectiles g) (warning_indicators g) (running g)
    (current_spawn_interval g) (screen g) (final_score g) (timers g)
    (stdout g) v.

(** ** Methods: state transformers that may raise

    A method takes the game object it is called on and gives back the object
    as it leaves it, paired with its completion: a raise keeps every
    assignment made before it. *)

Definition M (A : Type) : Type := Game → Game * Completion A.

Global Instance M_ret : MRet M := λ A a g, (g, Returned a).

Global Instance M_bind : MBind M := λ A B f m g,
  match m g with
  | (g', Returned a) => f a g'
  | (g', Raised e) => (g', Raised e)
  end.

Definition raise {A} (e : Exn) : M A := λ g, (g, Raised e).
Definition gets {A} (f : Game → A) : M A := λ g, (g, Returned (f g)).
Definition modify (f : Game → Game) : M unit := λ g, (f g, Returned tt).
Definition lift {A} (c : Completion A) : M A := λ g, (g, c).

(** [print(line)] *)
Definition print (line : string) : M unit :=
  modify (λ g, set_stdout (stdout g ++ [line]) g).

(** [try: body / except <classes>: handler] *)
Definition try_except {A} (body : M A) (catches : Exn → bool) (handler : M A) : M A :=
  λ g, match body g with
       | (g', Raised e) => if catches e then handler g' else (g', Raised e)
       | r => r
       end.

(** ** Event bus

    Modelled from the spec: [GameEventManager.publish] runs the handler of
    every attached observer, in attachment order.  The score observer files
    the elapsed time of a finished run under its mode; the stats observer
    counts. *)
Definition notify (e : GameEvent) (g : Game) (o : ObserverRef) : Game :=
  match o with
  | ScoreObserverRef =>
      match e with
      | RunEnded elapsed mode =>
          set_score_manager (ScoreManager.add_score mode elapsed (score_manager g)) g
      | _ => g
      end
  | StatsObserverRef =>
      set_stats_observer (StatsObserver.on_event e (stats_observer g)) g
  end.

Definition publish (e : GameEvent) : M unit :=
  modify (λ g, foldl (notify e) g (event_manager g)).

Definition attach (o : ObserverRef) : M unit :=
  modify (λ g, set_event_manager (event_manager g ++ [o]) g).

(** [pygame.time.set_timer(event, millis)]: one timer per event type. *)
Definition pygame_set_timer (event : Z) (millis : Z) : M unit :=
  modify (λ g, set_timers (<[event := millis]> (timers g)) g).

(** Modelled from the spec: a run is in progress while the state machine is
    in [Playing]. *)
Definition run_in_progress (g : Game) : bool :=
  bool_decide (screen g = Playing).

Section Game.

(** How the [GameModeContext] of this game treats a switch in mid-run. *)
Variable policy : GameModeContext.MidRunPolicy.

Variable cfg : Config.
Variable pg : Pygame.
Variable tbl : Strategy.Table.

(** [GameContext.SPAWN_EVENT], the event type of the spawn timer. *)
Variable SPAWN_EVENT : Z.

(** *** [_load_assets] *)

Definition caught_by_load_assets (e : Exn) : bool :=
  match e with
  | PygameError _ | FileNotFoundError _ => true
  | ValueError _ | OtherException _ => false
  end.

Definition _load_assets : M unit :=
  try_except
    (loaded ← lift (image_load pg (BACKGROUND_IMAGE cfg));
     converted ← lift (surface_convert pg loaded);
     modify (set_background_image (Some converted));;
     scaled ← lift (transform_scale pg converted (GAME_WIDTH cfg, GAME_HEIGHT cfg));
     modify (set_background_image (Some scaled)))
    caught_by_load_assets
    (print ("Warning: Could not load background image from " +:+ BACKGROUND_IMAGE cfg);;
     modify (set_background_image (Some (new_surface (GAME_WIDTH cfg, GAME_HEIGHT cfg))));;
     modify (λ g, set_background_image
                    (surface_fill (BACKGROUND_COLOR cfg) <$> background_image g) g)).

(** *** [set_game_mode] *)

Definition set_game_mode (mode : string) : M unit :=
  strategy ← (if decide (mode = "normal") then mret Strategy.NormalModeStrategy
              else if decide (mode = "nightmare") then mret Strategy.NightmareModeStrategy
              else raise (ValueError ("Unknown game mode: " +:+ mode)));
  context ← (λ g, (g, GameModeContext.set_strategy policy (run_in_progress g)
                         strategy (game_mode_context g)));
  modify (set_game_mode_context context);;
  modify (λ g, set_game_state (GameState.set_mode mode (game_state g)) g).

(** *** [initialize_game] *)

(** [self.game_mode_context.create_player()]: a new object each time. *)
Definition create_player : M Player :=
  fresh ← gets next_object;
  modify (set_next_object (S fresh));;
  gets (λ g, GameModeContext.create_player tbl (game_mode_context g) fresh).

Definition initialize_game : M unit :=
  modify (λ g, set_stats_observer (StatsObserver.reset (stats_observer g)) g);;
  p ← create_player;
  modify (set_player (Some p));;
  modify (set_projectiles []);;
  modify (set_warning_indicators []);;
  spawn_interval ← gets (λ g, GameModeContext.get_spawn_interval tbl
                                 (game_mode_context g) 0%Qc);
  modify (set_current_spawn_interval (Some spawn_interval));;
  pygame_set_timer SPAWN_EVENT spawn_interval.

(** *** [spawn_projectile]

    [create_projectile] draws the hazard type at random; the projectile it
    returns is an input here. *)
Definition spawn_projectile (created : Projectile) : M unit :=
  modify (λ g, set_projectiles (projectiles g ++ [created]) g).

(** *** State transitions of the inherited [GameContext]

    Modelled from the spec: entering [Menu]; entering [Playing], which runs
    the initialisation contract; entering [GameOver], which captures the final
    elapsed time and publishes [RunEnded] once. *)
Definition transition_to_menu : M unit := modify (set_screen Menu).

Definition transition_to_playing : M unit :=
  modify (set_screen Playing);;
  initialize_game.


(** *** [__init__]

    [stored] is what the score manager finds on disk and [gs] the process-wide
    [GameState] at construction time. *)
Definition blank (gs : GameState.t) (stored : ScoreManager.t) : Game :=
  mkGame None gs [] (StatsObserver.mk 0 0)
    (GameModeContext.mk Strategy.NormalModeStrategy) stored None [] [] true
    None Menu None ∅ [] 0.

Definition __init__ (gs : GameState.t) (stored : ScoreManager.t) : Game * Completion unit :=
  (_load_assets;;
   modify (set_game_state gs);;
   modify (set_event_manager []);;
   modify (set_stats_observer (StatsObserver.mk 0 0));;
   modify (set_game_mode_context (GameModeContext.mk Strategy.NormalModeStrategy));;
   modify (set_score_manager stored);;
   attach ScoreObserverRef;;
   attach StatsObserverRef;;
   modify (set_player None);;
   modify (set_projectiles []);;
   modify (set_warning_indicators []);;
   modify (set_running true);;
   transition_to_menu) (blank gs stored).

End Game.

(** ** Rendering

    What a render method draws on the surface it is given, in drawing order. *)

Inductive Font := DefaultFont | LargeFont | TitleFont.

Inductive DrawCmd :=
| Fill (c : Color)
| BlitSurface (s : option Surface) (topleft : Z * Z)
| BlitOverlay (size : Z * Z) (c : Color * Z) (topleft : Z * Z)
| BlitTextCentered (f : Font) (text : string) (c : Color) (center : Z * Z)
| BlitText (f : Font) (text : string) (c : Color) (topleft : Z * Z)
| DrawPlayer (p : Player)
| DrawProjectile (p : Projectile)
| DrawWarning (w : WarningIndicator)
| DrawHearts (health max_health : Z) (mode_name : string)
| DrawTime (elapsed_seconds : Qc)
| DrawNightmareStats (projectiles_dodged next_heart_at : Z).

(** A call of a score-manager method on [self.score_manager]. *)
Definition on_score_manager {A} (f : ScoreManager.t → A * ScoreManager.t) : M A :=
  λ g, let '(a, sm) := f (score_manager g) in (set_score_manager sm g, Returned a).

Section Render.

Variable cfg : Config.

(** [utils.formatting.format_seconds] and the pixel width of a rendered text. *)
Variable format_seconds : Qc → string.
Variable text_width : Font → string → Z.

Definition _render_game_over (final_score : option Qc) : M (list DrawCmd) :=
  let W := GAME_WIDTH cfg in
  let H := GAME_HEIGHT cfg in
  let ink := HUD_TEXT_COLOR cfg in
  let final_text :=
    match final_score with
    | None => "Score: 0.0s"
    | Some v => "Score: " +:+ format_seconds v
    end in
  mode_name ← gets (λ g, GameModeContext.get_mode_name (game_mode_context g));
  top ← on_score_manager (ScoreManager.top_scores 5 mode_name);
  let mode_text :=
    if decide (mode_name = "normal") then "Normal Mode" else "Nightmare Mode" in
  let highs_title := "Top Scores (" +:+ mode_text +:+ ")" in
  mret ([ BlitOverlay (W, H) (GAME_OVER_OVERLAY cfg) (0, 0);
          BlitTextCentered LargeFont "Game Over" ink (W `div` 2, H `div` 2 - 120);
          BlitTextCentered DefaultFont final_text ink (W `div` 2, H `div` 2 - 60);
          BlitTextCentered DefaultFont "Press R to restart  |  Esc to menu" ink
                           (W `div` 2, H `div` 2);
          BlitText DefaultFont highs_title ink
                   (W `div` 2 - text_width DefaultFont highs_title `div` 2,
                    H `div` 2 + 36) ]
        ++ imap (λ i value,
                   let idx := Z.of_nat (S i) in
                   BlitText DefaultFont (pretty idx +:+ ". " +:+ format_seconds value) ink
                            (W `div` 2 - 80, H `div` 2 + 36 + idx * 26))
                top).

(** The next-heart target shown on the nightmare HUD. *)
Definition next_heart_at (stats : StatsObserver.t) : Z :=
  let hearts_needed :=
    if decide (StatsObserver.hearts_restored stats = 0) then 75 else 150 in
  hearts_needed * (StatsObserver.hearts_restored stats + 1).

Definition render_game (game_over : bool) (elapsed_seconds : Qc)
    (final_score : option Qc) : M (list DrawCmd) :=
  background ← gets background_image;
  current_player ← gets player;
  body ← match game_over, current_player with
         | false, Some p =>
             shots ← gets projectiles;
             warnings ← gets warning_indicators;
             mode_name ← gets (λ g, GameModeContext.get_mode_name (game_mode_context g));
             stats ← gets stats_observer;
             mret ([DrawPlayer p]
                   ++ (DrawProjectile <$> shots)
                   ++ (DrawWarning <$> warnings)
                   ++ [DrawHearts (health p) (max_health p) mode_name;
                       DrawTime elapsed_seconds]
                   ++ (if decide (mode_name = "nightmare")
                       then [DrawNightmareStats (StatsObserver.projectiles_dodged stats)
                                                (next_heart_at stats)]
                       else []))
         | _, _ => _render_game_over final_score
         end;
  mret ([Fill (BACKGROUND_COLOR cfg); BlitSurface background (0, 0)] ++ body).

End Render.

(** ** The main loop

    [handle_event], [update] and [render] are inherited from [GameContext] and
    dispatch to the current state; they are parameters, taken to return
    normally.  One [Tick] is what one iteration receives from pygame: the
    milliseconds [clock.tick(60)] reports and the events [pygame.event.get()]
    drains.  Next to the game object the loop keeps the log of the calls it
    has dispatched itself. *)

Record Tick := mkTick {
  clock_tick : Z;
  event_queue : list Event
}.

Inductive Call :=
| CallHandleEvent (e : Event)
| CallUpdate (dt_seconds : Qc)
| CallRender
| CallDisplayUpdate
| CallPygameQuit.

Global Instance Event_eq_dec : EqDecision Event.
Proof. solve_decision. Defined.

Global Instance Call_eq_dec : EqDecision Call.
Proof. solve_decision. Defined.

Inductive Outcome :=
| Exited (g : Game) (log : list Call)
| StillLooping (g : Game) (log : list Call).

(** The [while] condition. *)
Definition loop_condition (g : Game) : bool :=
  running g && GameState.game_running (game_state g).

Section Loop.

Variable handle_event : Event → Game → Game.
Variable update : Qc → Game → Game.
Variable render : Game → Game.

(** Body of [for event in pygame.event.get()]. *)
Definition dispatch (w : Game * list Call) (event : Event) : Game * list Call :=
  if decide (ev_type event = pygame_QUIT)
  then (set_running false w.1, w.2)
  else (handle_event event w.1, w.2 ++ [CallHandleEvent event]).

(** Body of the [while]. *)
Definition tick_body (t : Tick) (w : Game * list Call) : Game * list Call :=
  let dt_seconds := Q2Qc (clock_tick t # 1000) in
  let w1 := foldl dispatch w (event_queue t) in
  let w2 := (update dt_seconds w1.1, w1.2 ++ [CallUpdate dt_seconds]) in
  (render w2.1, w2.2 ++ [CallRender; CallDisplayUpdate]).

(** [run] on a finite script of ticks.  When the script is used up with the
    condition still true the loop is still going. *)
Fixpoint run_from (script : list Tick) (w : Game * list Call) : Outcome :=
  if loop_condition w.1 then
    match script with
    | [] => StillLooping w.1 w.2
    | t :: script' => run_from script' (tick_body t w)
    end
  else Exited w.1 (w.2 ++ [CallPygameQuit]).

Definition run (script : list Tick) (g : Game) : Outcome := run_from script (g, []).

(** The game and log after the first [n] ticks of the script, the [while]
    condition not looked at. *)
Definition after_ticks (n : nat) (script : list Tick) (w : Game * list Call)
    : Game * list Call :=
  foldl (λ w t, tick_body t w) w (take n script).

End Loop.

(** Whether a quit event is among the events of the given ticks. *)
Definition has_quit (events : list Event) : bool :=
  existsb (λ e, bool_decide (ev_type e = pygame_QUIT)) events.

Definition quit_observed (ticks : list Tick) : bool :=
  existsb (λ t, has_quit (event_queue t)) ticks.

(** ** Sample instances

    Concrete collaborators on which the statements below are exercised.  The
    interval figures are the design document's examples: a constant 1200 ms in
    normal mode, and in nightmare mode an interval that starts at 1000 ms,
    loses 10 ms per elapsed second and stops at 300 ms. *)

Definition sample_cfg : Config :=
  mkConfig 800 600 (30, 30, 40) "assets/background.png" ((0, 0, 0), 160) (255, 255, 255).

Definition sample_tbl : Strategy.Table :=
  Strategy.mkTable
    (λ s elapsed,
       match s with
       | Strategy.NormalModeStrategy => 1200
       | Strategy.NightmareModeStrategy => Z.max 300 (1000 - 10 * Qfloor (this elapsed))
       end)
    (λ s,
       match s with
       | Strategy.NormalModeStrategy => Strategy.mkPlayerStats 3 3 (400, 500)
       | Strategy.NightmareModeStrategy => Strategy.mkPlayerStats 1 3 (400, 500)
       end).

Definition sample_SPAWN_EVENT : Z := 32867.

(** pygame with the background file present, and with it missing. *)
Definition sample_pygame : Pygame :=
  mkPygame (λ path, Returned (mkSurface (1920, 1080) (ImagePixels path)))
           (λ s, Returned s)
           (λ s size, Returned (mkSurface size (surf_content s))).

Definition sample_pygame_no_file : Pygame :=
  mkPygame (λ path, Raised (FileNotFoundError ("No file '" +:+ path +:+ "' found")))
           (λ s, Returned s)
           (λ s size, Returned (mkSurface size (surf_content s))).

Definition sample_stored : ScoreManager.t :=
  {[ "normal" := [Q2Qc (25 # 2); Q2Qc (48 # 1); Q2Qc (7 # 1); Q2Qc (31 # 1);
                  Q2Qc (361 # 4); Q2Qc (3 # 1); Q2Qc (48 # 1)] ]}.

(** The game as the constructor leaves it. *)
Definition sample_game : Game :=
  (__init__ sample_cfg sample_pygame (GameState.mk "normal" true) sample_stored).1.

(** A context that rejects a switch in mid-run, and one that defers it. *)
Definition sample_policy : GameModeContext.MidRunPolicy :=
  GameModeContext.RejectMidRun (OtherException "run in progress").


(** The same game with a run in progress. *)
Definition sample_game_playing : Game :=
  (transition_to_playing sample_tbl sample_SPAWN_EVENT sample_game).1.

(** A nightmare run in which two hearts have been restored and 310
    projectiles dodged. *)
Definition sample_game_nightmare : Game :=
  set_stats_observer (StatsObserver.mk 2 310)
    (initialize_game sample_tbl sample_SPAWN_EVENT
       (set_game_mode sample_policy "nightmare" sample_game).1).1.

(** Handlers that leave the game alone, and a handler that stops the game on
    the Escape key. *)
Definition idle_handle_event (e : Event) (g : Game) : Game := g.
Definition idle_update (dt : Qc) (g : Game) : Game := g.
Definition idle_render (g : Game) : Game := g.

Definition escape_handle_event (e : Event) (g : Game) : Game :=
  if decide (ev_key e = 27)
  then set_game_state (GameState.mk (GameState.mode (game_state g)) false) g
  else g.

Definition sample_format_seconds (v : Qc) : string := pretty (Qfloor (this v)) +:+ "s".
Definition sample_text_width (f : Font) (text : string) : Z := 12 * Z.of_nat (String.length text).

(** ** The entry point and the trace of a run *)

(** What one executed tick contributes to the log of dispatched calls: a
    [handle_event] per event that is not a quit event, in queue order, then
    [update], [render] and [pygame.display.update]. *)
Definition tick_calls (t : Tick) : list Call :=
  (CallHandleEvent <$> filter (λ e, ev_type e ≠ pygame_QUIT) (event_queue t))
  ++ [CallUpdate (Q2Qc (clock_tick t # 1000)); CallRender; CallDisplayUpdate].

(** [main]: construct the game, then run it.  An exception raised by the
    constructor leaves [main] before the loop is entered. *)
Definition main (cfg : Config) (pg : Pygame) (gs : GameState.t) (stored : ScoreManager.t)
    (handle_event : Event → Game → Game) (update : Qc → Game → Game)
    (render : Game → Game) (script : list Tick) : Completion Outcome :=
  match __init__ cfg pg gs stored with
  | (game, Returned _) => Returned (run handle_event update render script game)
  | (_, Raised e) => Raised e
  end.

(** pygame in which loading the background fails with an exception that is
    neither [pygame.error] nor [FileNotFoundError]. *)
Definition sample_pygame_denied : Pygame :=
  mkPygame (λ path, Raised (OtherException "PermissionError"))
           (λ s, Returned s)
           (λ s size, Returned (mkSurface size (surf_content s))).

(** * The build scripts: [create_icon.py] and [build_game.py]

    Both scripts act on the working directory and the terminal.  A [Shell] is
    the set of paths that exist (relative to the working directory, with [/]
    between components), the lines printed so far and the commands handed to
    [subprocess.run] so far.  File-system calls are taken to succeed on the
    paths the scripts expect (a directory where [shutil.rmtree] is called, a
    file where [os.remove] is). *)

Record Shell := mkShell {
  files : gset string;
  printed : list string;
  launched : list (list string)
}.

Definition sh_print (line : string) (sh : Shell) : Shell :=
  mkShell (files sh) (printed sh ++ [line]) (launched sh).

Definition sh_write (path : string) (sh : Shell) : Shell :=
  mkShell ({[path]} ∪ files sh) (printed sh) (launched sh).

Definition sh_launch (cmd : list string) (sh : Shell) : Shell :=
  mkShell (files sh) (printed sh) (launched sh ++ [cmd]).

(** [os.path.exists(path)] *)
Definition path_exists (path : string) (sh : Shell) : bool :=
  bool_decide (path ∈ files sh).

(** [path] is [dir] itself or lies below it. *)
Definition inside (dir path : string) : Prop :=
  path = dir ∨ String.prefix (dir +:+ "/") path = true.

Global Instance inside_dec (dir path : string) : Decision (inside dir path).
Proof. unfold inside. apply _. Defined.

(** [shutil.rmtree(dir)] and [os.remove(path)] *)
Definition rmtree (dir : string) (sh : Shell) : Shell :=
  mkShell (filter (λ p, ¬ inside dir p) (files sh)) (printed sh) (launched sh).

Definition os_remove (path : string) (sh : Shell) : Shell :=
  mkShell (files sh ∖ {[path]}) (printed sh) (launched sh).

(** The line feed inside a printed text. *)
Definition newline : string :=
  String (Ascii.Ascii false true false true false false false false) "".

(** [s * n] on strings. *)
Fixpoint string_times (s : string) (n : nat) : string :=
  match n with
  | O => ""
  | S n => s +:+ string_times s n
  end.

Module CreateIcon.

(** What becomes of the conversion with Pillow: [from PIL import Image]
    raises [ImportError]; the ICO file is written; or [Image.open] or
    [img.save] raises another exception, which the script does not catch,
    with or without an ICO file left behind. *)
Inductive Pillow :=
| PillowMissing
| PillowConverts
| PillowFails (e : Exn) (ico_left : bool).

(** What the script does not control: whether pygame can be imported and
    draws and saves the PNG ([Some e]: it raises [e] before anything is
    written or printed), and Pillow. *)
Record Env := mkEnv {
  pygame_error : option Exn;
  pillow : Pillow
}.

Definition leaves_ico (p : Pillow) : bool :=
  match p with
  | PillowMissing => false
  | PillowConverts => true
  | PillowFails _ ico_left => ico_left
  end.

(** The script: it draws the icon (the pixels are not modelled), saves it as
    PNG and, when Pillow can be imported, converts it to an ICO file. *)
Definition script (env : Env) (sh : Shell) : Shell * Completion unit :=
  match pygame_error env with
  | Some e => (sh, Raised e)
  | None =>
      let sh := sh_write "game_icon.png" sh in
      let sh := sh_print "Icon created as 'game_icon.png'" sh in
      let sh := sh_print "To convert to .ico format for Windows:" sh in
      let sh := sh_print
        "You can use online converters or install Pillow and use the conversion script below."
        sh in
      match pillow env with
      | PillowConverts =>
          let sh := sh_write "game_icon.ico" sh in
          (sh_print "Successfully created 'game_icon.ico' with multiple sizes!" sh,
           Returned tt)
      | PillowMissing =>
          let sh := sh_print (newline +:+ "To create .ico file, install Pillow:") sh in
          let sh := sh_print "pip install Pillow" sh in
          (sh_print "Then run this script again." sh, Returned tt)
      | PillowFails e ico_left =>
          ((if ico_left then sh_write "game_icon.ico" sh else sh), Raised e)
      end
  end.

End CreateIcon.

Module BuildGame.

(** How [subprocess.run(cmd, check=True, ...)] ends: the process ran and
    exited with status 0, it ran and exited with another status
    ([CalledProcessError], carrying its standard error), or it could not be
    started (for instance [FileNotFoundError] when the program is missing). *)
Inductive Finished :=
| Completed
| CalledProcessError (stderr : string)
| LaunchError (e : Exn).

(** What the scripts do not control: [sys.executable], what the icon script
    meets when it runs, and what PyInstaller does with a command line in a
    working directory. *)
Record Tools := mkTools {
  python : string;
  icon_env : CreateIcon.Env;
  pyinstaller : list string → gset string → Finished * gset string
}.

Definition base_cmd : list string :=
  [ "pyinstaller"; "--onefile"; "--windowed"; "--icon=game_icon.ico";
    "--name=Dodging_Simulator"; "--distpath=./dist"; "--workpath=./build";
    "--specpath=./"; "game_main.py" ].

Definition data_dirs : list string := ["assets"; "Dodging_Simulator"].

(** The loop over [data_dirs]: [cmd.extend] for each directory that exists. *)
Definition add_data (sh : Shell) (cmd : list string) : list string :=
  foldl (λ cmd data_dir,
           if path_exists data_dir sh
           then cmd ++ ["--add-data"; data_dir +:+ ";" +:+ data_dir]
           else cmd)
        cmd data_dirs.

(** [subprocess.run([sys.executable, "create_icon.py"])], without [check]:
    the interpreter that runs the build script is started on the icon
    script, and however the child ends (it finds no [create_icon.py], the
    script raises, or it runs to its end) the call returns and its result is
    dropped.  The child prints on the terminal of the build script. *)
Definition run_icon_script (tools : Tools) (sh : Shell) : Shell :=
  let sh := sh_launch [python tools; "create_icon.py"] sh in
  if path_exists "create_icon.py" sh
  then (CreateIcon.script (icon_env tools) sh).1
  else sh.

Definition build_executable (tools : Tools) (sh : Shell) : Shell * Completion unit :=
  let sh := sh_print "🎮 Building Dodging Simulator..." sh in
  let sh := sh_print (string_times "=" 50) sh in
  let icon_path := "game_icon.ico" in
  let sh :=
    if negb (path_exists icon_path sh) then
      let sh := sh_print "⚠️  Icon file not found. Creating icon first..." sh in
      run_icon_script tools sh
    else sh in
  let cmd := add_data sh base_cmd in
  let sh := sh_print "Running PyInstaller..." sh in
  let sh := sh_print ("Command: " +:+ String.concat " " cmd) sh in
  let sh := sh_print "" sh in
  let sh := sh_launch cmd sh in
  match pyinstaller tools cmd (files sh) with
  | (Completed, files_after) =>
      let sh := mkShell files_after (printed sh) (launched sh) in
      let sh := sh_print "✅ Build successful!" sh in
      let sh := sh_print "📁 Executable created at: ./dist/Dodging_Simulator.exe" sh in
      let sh := sh_print "" sh in
      let sh := sh_print "🎉 Your game is ready!" sh in
      let sh := sh_print "You can now:" sh in
      let sh := sh_print "1. Double-click 'Dodging_Simulator.exe' to play" sh in
      let sh := sh_print "2. Share the .exe file with friends" sh in
      let sh := sh_print "3. Move it to any Windows computer and it will run" sh in
      let sh := sh_print "" sh in
      let sh := sh_print
        "💡 Tip: The executable contains everything needed to run the game!" sh in
      (sh, Returned tt)
  | (CalledProcessError stderr, files_after) =>
      let sh := mkShell files_after (printed sh) (launched sh) in
      let sh := sh_print "❌ Build failed!" sh in
      let sh := sh_print "Error output:" sh in
      let sh := sh_print stderr sh in
      let sh := sh_print "" sh in
      let sh := sh_print "💡 Common solutions:" sh in
      let sh := sh_print "1. Make sure PyInstaller is installed: pip install pyinstaller" sh in
      let sh := sh_print "2. Check that start_screen.py exists and runs correctly" sh in
      let sh := sh_print "3. Make sure all dependencies are installed" sh in
      (sh, Returned tt)
  | (LaunchError e, files_after) =>
      (mkShell files_after (printed sh) (launched sh), Raised e)
  end.

Definition dirs_to_clean : list string := ["build"; "__pycache__"].
Definition files_to_clean : list string := ["Dodging_Simulator.spec"].

Definition clean_build (sh : Shell) : Shell :=
  let sh :=
    foldl (λ sh dir_name,
             if path_exists dir_name sh
             then sh_print ("🧹 Cleaned " +:+ dir_name +:+ "/") (rmtree dir_name sh)
             else sh)
          sh dirs_to_clean in
  foldl (λ sh file_name,
           if path_exists file_name sh
           then sh_print ("🧹 Cleaned " +:+ file_name) (os_remove file_name sh)
           else sh)
        sh files_to_clean.

(** The [__main__] block.  [answer] is what the user types at the prompt
    after [.lower().strip()]. *)
Definition script_main (tools : Tools) (argv : list string) (answer : string)
    (sh : Shell) : Shell * Completion unit :=
  let sh := sh_print "Dodging Simulator - Build Script" sh in
  let sh := sh_print (string_times "=" 40) sh in
  if bool_decide (1 < length argv)%nat && bool_decide (argv !! 1%nat = Some "clean") then
    (clean_build sh, Returned tt)
  else
    match build_executable tools sh with
    | (sh, Raised e) => (sh, Raised e)
    | (sh, Returned _) =>
        let sh := sh_print (newline +:+ "🧹 Clean up build files? (y/n): ") sh in
        if bool_decide (answer ∈ ["y"; "yes"]) then
          (sh_print "✨ All clean!" (clean_build sh), Returned tt)
        else (sh, Returned tt)
    end.

End BuildGame.

(** Sample tools and working directories for the build scripts. *)
Definition sample_tools_ok : BuildGame.Tools :=
  BuildGame.mkTools "python.exe" (CreateIcon.mkEnv None CreateIcon.PillowConverts)
    (λ cmd fs, (BuildGame.Completed,
                {["dist"; "dist/Dodging_Simulator.exe"; "build"; "build/Dodging_Simulator";
                  "Dodging_Simulator.spec"]} ∪ fs)).

Definition sample_tools_no_pyinstaller : BuildGame.Tools :=
  BuildGame.mkTools "python.exe" (CreateIcon.mkEnv None CreateIcon.PillowMissing)
    (λ cmd fs, (BuildGame.LaunchError (FileNotFoundError "pyinstaller"), fs)).

Definition sample_tools_failing : BuildGame.Tools :=
  BuildGame.mkTools "python.exe" (CreateIcon.mkEnv None CreateIcon.PillowMissing)
    (λ cmd fs, (BuildGame.CalledProcessError "ModuleNotFoundError: No module named 'pygame'",
                {["build"]} ∪ fs)).

Definition sample_shell : Shell :=
  mkShell {["game_main.py"; "build_game.py"; "create_icon.py"; "assets";
            "assets/background.png"; "Dodging_Simulator"]} [] [].

(** A checkout from which [create_icon.py] is missing. *)
Definition sample_shell_no_icon_script : Shell :=
  mkShell {["game_main.py"; "build_game.py"; "assets"; "assets/background.png"]} [] [].

Definition sample_shell_built : Shell :=
  mkShell {["game_main.py"; "build_game.py"; "assets"; "build"; "build/Dodging_Simulator";
            "build/Dodging_Simulator/base_library.zip"; "__pycache__";
            "Dodging_Simulator.spec"; "dist"; "dist/Dodging_Simulator.exe";
            "game_icon.ico"]} [] [].

(** * Properties *)

(** Unfolds the method combinators. *)
Ltac run_method :=
  cbv [mbind mret M_bind M_ret raise gets modify lift print try_except
       pygame_set_timer publish attach on_score_manager].

(** ** Mode selection *)

Section ModeSelection.

Variable policy : GameModeContext.MidRunPolicy.
Variable tbl : Strategy.Table.
Variable SPAWN_EVENT : Z.

(** What [set_game_mode] does with a mode it does not know. *)
Lemma set_game_mode_unknown (mode : string) (g : Game) :
  mode ≠ "normal" → mode ≠ "nightmare" →
  set_game_mode policy mode g
  = (g, Raised (ValueError ("Unknown game mode: " +:+ mode))).
Proof.
  intros Hnormal Hnightmare. unfold set_game_mode. run_method.
  destruct (decide (mode = "normal")) as [|_]; [done|].
  destruct (decide (mode = "nightmare")) as [|_]; [done|].
  reflexivity.
Qed.



(** What [initialize_game] leaves behind. *)
Lemma initialize_game_result (g : Game) :
  initialize_game tbl SPAWN_EVENT g =
    (let i := GameModeContext.get_spawn_interval tbl (game_mode_context g) 0%Qc in
     let p := GameModeContext.create_player tbl (game_mode_context g) (next_object g) in
     mkGame (background_image g) (game_state g) (event_manager g)
       (StatsObserver.mk 0 0) (game_mode_context g) (score_manager g) (Some p) [] []
       (running g) (Some i) (screen g) (final_score g)
       (<[SPAWN_EVENT := i]> (timers g)) (stdout g) (S (next_object g)),
     Returned tt).
Proof. reflexivity. Qed.

End ModeSelection.

(** C10: for every mode string other than "normal" and "nightmare",
    [set_game_mode] raises before it has assigned anything: the game object
    after the call is the object before it, so the active strategy of the
    [GameModeContext] and the mode name recorded in [GameState] are exactly
    what they were. *)
Theorem set_game_mode_atomic_on_error (policy : GameModeContext.MidRunPolicy)
    (mode : string) (g : Game) :
  mode ≠ "normal" → mode ≠ "nightmare" →
  let r := set_game_mode policy mode g in
  (∃ e, r.2 = Raised e)
  ∧ r.1 = g
  ∧ GameModeContext.strategy (game_mode_context r.1)
    = GameModeContext.strategy (game_mode_context g)
  ∧ GameState.mode (game_state r.1) = GameState.mode (game_state g).
Proof.
  intros Hnormal Hnightmare r. subst r.
  rewrite set_game_mode_unknown by assumption. simpl.
  split; [eauto|]. repeat split.
Qed.

Lemma set_game_mode_atomic_on_error_witness :
  "hard" ≠ "normal" ∧ "hard" ≠ "nightmare"
  ∧ (set_game_mode sample_policy "hard" sample_game_playing).1 = sample_game_playing.
Proof.
  split; [discriminate|]. split; [discriminate|].
  apply (set_game_mode_atomic_on_error sample_policy "hard" sample_game_playing);
    discriminate.
Defined.

(** C3, as the code has it: for a mode name other than "normal" and
    "nightmare", [set_game_mode] raises [ValueError] with the message
    "Unknown game mode: <mode>" to its caller; the previously active strategy
    stays active and the call prints nothing. *)
Theorem set_game_mode_unknown_raises (policy : GameModeContext.MidRunPolicy)
    (mode : string) (g : Game) :
  mode ≠ "normal" → mode ≠ "nightmare" →
  let r := set_game_mode policy mode g in
  r.2 = Raised (ValueError ("Unknown game mode: " +:+ mode))
  ∧ GameModeContext.strategy (game_mode_context r.1)
    = GameModeContext.strategy (game_mode_context g)
  ∧ stdout r.1 = stdout g.
Proof.
  intros Hnormal Hnightmare r. subst r.
  rewrite set_game_mode_unknown by assumption. simpl. repeat split.
Qed.

Lemma set_game_mode_unknown_raises_witness :
  "easy" ≠ "normal" ∧ "easy" ≠ "nightmare"
  ∧ (set_game_mode sample_policy "easy" sample_game).2
    = Raised (ValueError "Unknown game mode: easy").
Proof.
  split; [discriminate|]. split; [discriminate|].
  apply (set_game_mode_unknown_raises sample_policy "easy" sample_game); discriminate.
Defined.

(** C3 as stated fails: on the unknown mode "hard" the call does not return
    with a warning surfaced; it completes by raising, and nothing has been
    printed. *)
Lemma set_game_mode_unknown_no_warning :
  let r := set_game_mode sample_policy "hard" sample_game in
  r.2 = Raised (ValueError "Unknown game mode: hard")
  ∧ stdout r.1 = stdout sample_game
  ∧ ¬ (r.2 = Returned tt ∧ ∃ line, stdout r.1 = stdout sample_game ++ [line]).
Proof.
  split; [reflexivity|]. split; [reflexivity|].
  intros [Hret _]. discriminate Hret.
Qed.



(** C9: after every call of [initialize_game] the projectile list and the
    warning-indicator list are empty, both stats counters are zero, the player
    is a new object made by the strategy that is active (each call makes
    another one), and [current_spawn_interval] is that strategy's
    [get_spawn_interval(0.0)]. *)
Theorem initialize_game_postcondition (tbl : Strategy.Table) (SPAWN_EVENT : Z) (g : Game) :
  let r := initialize_game tbl SPAWN_EVENT g in
  r.2 = Returned tt
  ∧ projectiles r.1 = []
  ∧ warning_indicators r.1 = []
  ∧ StatsObserver.hearts_restored (stats_observer r.1) = 0
  ∧ StatsObserver.projectiles_dodged (stats_observer r.1) = 0
  ∧ game_mode_context r.1 = game_mode_context g
  ∧ player r.1
    = Some (GameModeContext.create_player tbl (game_mode_context g) (next_object g))
  ∧ (∀ p, player r.1 = Some p →
       player_id p = next_object g ∧ (player_id p < next_object r.1)%nat)
  ∧ player (initialize_game tbl SPAWN_EVENT r.1).1 ≠ player r.1
  ∧ current_spawn_interval r.1
    = Some (GameModeContext.get_spawn_interval tbl (game_mode_context r.1) 0%Qc).
Proof.
  cbv zeta. rewrite !initialize_game_result. cbn.
  repeat (split; [reflexivity|]).
  split.
  - intros p [= <-]. cbn. split; [reflexivity|lia].
  - split; [|reflexivity].
    intros [= Hid]. lia.
Qed.

(** ** Asset loading *)

(** Sequencing after a method that returned. *)
Lemma bind_returned {A B} (m : M A) (f : A → M B) (g g' : Game) (a : A) :
  m g = (g', Returned a) → (m ≫= f) g = f a g'.
Proof. intros H. unfold mbind, M_bind. rewrite H. reflexivity. Qed.

(** The fallback branch of [_load_assets], entered from a game [g']. *)
Lemma load_assets_fallback (cfg : Config) (g' : Game) :
  (print ("Warning: Could not load background image from " +:+ BACKGROUND_IMAGE cfg);;
   modify (set_background_image (Some (new_surface (GAME_WIDTH cfg, GAME_HEIGHT cfg))));;
   modify (λ g, set_background_image
                  (surface_fill (BACKGROUND_COLOR cfg) <$> background_image g) g)) g'
  = (set_background_image
       (Some (mkSurface (GAME_WIDTH cfg, GAME_HEIGHT cfg) (SolidFill (BACKGROUND_COLOR cfg))))
       (set_stdout
          (stdout g' ++ ["Warning: Could not load background image from "
                         +:+ BACKGROUND_IMAGE cfg]) g'),
     Returned tt).
Proof. reflexivity. Qed.

(** C8: when loading the background fails with a missing file
    ([FileNotFoundError]) or a load error ([pygame.error]), at the load, the
    conversion or the scaling, [_load_assets] returns normally: it prints a
    warning and the background is a surface of the game's size filled with
    the background colour; the constructor then runs to its end and the game
    starts in the menu. *)
Theorem load_assets_failure_not_fatal (cfg : Config) (pg : Pygame) (e : Exn) (g : Game) :
  caught_by_load_assets e = true →
  image_load pg (BACKGROUND_IMAGE cfg) = Raised e
  ∨ (∃ loaded, image_load pg (BACKGROUND_IMAGE cfg) = Returned loaded
       ∧ (surface_convert pg loaded = Raised e
          ∨ ∃ converted, surface_convert pg loaded = Returned converted
              ∧ transform_scale pg converted (GAME_WIDTH cfg, GAME_HEIGHT cfg) = Raised e)) →
  let fallback :=
    Some (mkSurface (GAME_WIDTH cfg, GAME_HEIGHT cfg) (SolidFill (BACKGROUND_COLOR cfg))) in
  let r := _load_assets cfg pg g in
  r.2 = Returned tt
  ∧ background_image r.1 = fallback
  ∧ stdout r.1 = stdout g ++ ["Warning: Could not load background image from "
                              +:+ BACKGROUND_IMAGE cfg]
  ∧ ∀ gs stored,
      let started := __init__ cfg pg gs stored in
      started.2 = Returned tt
      ∧ background_image started.1 = fallback
      ∧ screen started.1 = Menu
      ∧ running started.1 = true.
Proof.
  intros Hcaught Hfail fallback r.
  assert (Hload : ∀ g0, _load_assets cfg pg g0
            = (set_background_image fallback
                 (set_stdout
                    (stdout g0 ++ ["Warning: Could not load background image from "
                                   +:+ BACKGROUND_IMAGE cfg]) g0),
               Returned tt)).
  { intros g0. unfold _load_assets, try_except at 1.
    destruct Hfail as [Hl|(loaded & Hl & [Hc|(converted & Hc & Hs)])].
    - unfold mbind at 1, M_bind at 1, lift at 1. rewrite Hl, Hcaught.
      apply load_assets_fallback.
    - unfold mbind at 1, M_bind at 1, lift at 1. rewrite Hl.
      unfold mbind at 1, M_bind at 1, lift at 1. rewrite Hc, Hcaught.
      apply load_assets_fallback.
    - unfold mbind at 1, M_bind at 1, lift at 1. rewrite Hl.
      unfold mbind at 1, M_bind at 1, lift at 1. rewrite Hc.
      unfold mbind at 1 2, M_bind at 1 2, lift at 1, modify at 1. rewrite Hs, Hcaught.
      rewrite load_assets_fallback. destruct g0; reflexivity. }
  subst r. rewrite Hload. cbn. repeat (split; [reflexivity|]).
  intros gs stored. cbv zeta. unfold __init__.
  rewrite (bind_returned _ _ _ _ _ (Hload _)). cbn. repeat split.
Qed.

Lemma load_assets_failure_not_fatal_witness :
  let r := _load_assets sample_cfg sample_pygame_no_file
             (blank (GameState.mk "normal" true) sample_stored) in
  r.2 = Returned tt
  ∧ background_image r.1 = Some (mkSurface (800, 600) (SolidFill (30, 30, 40)))
  ∧ stdout r.1 = ["Warning: Could not load background image from assets/background.png"].
Proof.
  pose proof (load_assets_failure_not_fatal sample_cfg sample_pygame_no_file
                (FileNotFoundError "No file 'assets/background.png' found")
                (blank (GameState.mk "normal" true) sample_stored)
                eq_refl (or_introl eq_refl)) as H.
  cbv zeta in H. destruct H as (H1 & H2 & H3 & _).
  repeat split; assumption.
Defined.


(** ** Statistics *)








(** ** The nightmare HUD *)

(** What [render_game] draws while a run is shown. *)
Lemma render_game_playing (cfg : Config) (format_seconds : Qc → string)
    (text_width : Font → string → Z) (g : Game) (p : Player)
    (elapsed_seconds : Qc) (final_score : option Qc) :
  player g = Some p →
  (render_game cfg format_seconds text_width false elapsed_seconds final_score g).2
  = Returned ([Fill (BACKGROUND_COLOR cfg); BlitSurface (background_image g) (0, 0)]
              ++ [DrawPlayer p]
              ++ (DrawProjectile <$> projectiles g)
              ++ (DrawWarning <$> warning_indicators g)
              ++ [DrawHearts (health p) (max_health p)
                    (GameModeContext.get_mode_name (game_mode_context g));
                  DrawTime elapsed_seconds]
              ++ (if decide (GameModeContext.get_mode_name (game_mode_context g)
                             = "nightmare")
                  then [DrawNightmareStats
                          (StatsObserver.projectiles_dodged (stats_observer g))
                          (next_heart_at (stats_observer g))]
                  else [])).
Proof.
  intros Hplayer. unfold render_game. run_method. rewrite Hplayer. reflexivity.
Qed.

(** C7: in nightmare mode, while a run is shown, the HUD's next-heart target
    comes from the two fixed thresholds: with no heart restored yet it is 75
    dodges, and with [k > 0] hearts restored it is [150 * (k + 1)] dodges. *)
Theorem nightmare_next_heart_target (cfg : Config) (format_seconds : Qc → string)
    (text_width : Font → string → Z) (g : Game) (p : Player) (k : Z)
    (elapsed_seconds : Qc) (final_score : option Qc) :
  player g = Some p →
  GameModeContext.get_mode_name (game_mode_context g) = "nightmare" →
  StatsObserver.hearts_restored (stats_observer g) = k →
  let target := if decide (k = 0) then 75 else 150 * (k + 1) in
  next_heart_at (stats_observer g) = target
  ∧ ∃ before,
      (render_game cfg format_seconds text_width false elapsed_seconds final_score g).2
      = Returned (before ++ [DrawNightmareStats
                               (StatsObserver.projectiles_dodged (stats_observer g))
                               target]).
Proof.
  intros Hplayer Hmode Hk target.
  assert (Htarget : next_heart_at (stats_observer g) = target).
  { subst target. unfold next_heart_at. rewrite Hk.
    destruct (decide (k = 0)) as [->|_]; reflexivity. }
  split; [exact Htarget|].
  rewrite (render_game_playing _ _ _ _ p) by exact Hplayer.
  rewrite Hmode, Htarget, decide_True by reflexivity.
  exists ([Fill (BACKGROUND_COLOR cfg); BlitSurface (background_image g) (0, 0)]
          ++ [DrawPlayer p]
          ++ (DrawProjectile <$> projectiles g)
          ++ (DrawWarning <$> warning_indicators g)
          ++ [DrawHearts (health p) (max_health p) "nightmare";
              DrawTime elapsed_seconds]).
  rewrite <- !app_assoc. reflexivity.
Qed.

Lemma nightmare_next_heart_target_witness :
  next_heart_at (stats_observer sample_game_nightmare) = 450
  ∧ ∃ before,
      (render_game sample_cfg sample_format_seconds sample_text_width false
         (Q2Qc (125 # 1)) None sample_game_nightmare).2
      = Returned (before ++ [DrawNightmareStats 310 450]).
Proof.
  assert (Hplayer : player sample_game_nightmare = Some (mkPlayer 0 1 3 (400, 500)))
    by (vm_compute; reflexivity).
  assert (Hmode : GameModeContext.get_mode_name (game_mode_context sample_game_nightmare)
                  = "nightmare") by (vm_compute; reflexivity).
  assert (Hhearts : StatsObserver.hearts_restored (stats_observer sample_game_nightmare) = 2)
    by (vm_compute; reflexivity).
  pose proof (nightmare_next_heart_target sample_cfg sample_format_seconds
                sample_text_width sample_game_nightmare (mkPlayer 0 1 3 (400, 500)) 2
                (Q2Qc (125 # 1)) None Hplayer Hmode Hhearts) as H.
  cbv zeta in H.
  change (StatsObserver.projectiles_dodged (stats_observer sample_game_nightmare))
    with 310 in H.
  exact H.
Defined.

(** ** The leaderboard *)

Global Instance ranks_before_total : Total ScoreManager.ranks_before.
Proof.
  intros a b. unfold ScoreManager.ranks_before.
  destruct (total Qcle a b); auto.
Qed.

Global Instance ranks_before_trans : Transitive ScoreManager.ranks_before.
Proof.
  intros a b c Hab Hbc. unfold ScoreManager.ranks_before in *.
  by trans b.
Qed.

Lemma top_scores_descending (n : nat) (mode : string) (sm : gmap string (list Qc)) :
  StronglySorted ScoreManager.ranks_before (ScoreManager.top_scores n mode sm).1.
Proof.
  unfold ScoreManager.top_scores, ScoreManager.sort_desc. simpl.
  apply (StronglySorted_app_1_l _ _ (drop n (merge_sort ScoreManager.ranks_before
                                                 (ScoreManager.scores_of mode sm)))).
  rewrite take_drop. apply StronglySorted_merge_sort; apply _.
Qed.

(** In a strongly sorted list an earlier entry is related to every later one. *)
Lemma strongly_sorted_lookup {A} (R : relation A) (l : list A) (i j : nat) (a b : A) :
  StronglySorted R l → l !! i = Some a → l !! j = Some b → (i < j)%nat → R a b.
Proof.
  intros Hsorted. revert i j.
  induction Hsorted as [|x l Hsorted IH Hall]; intros i j Hi Hj Hlt; [done|].
  destruct j as [|j]; [lia|]. simpl in Hj.
  destruct i as [|i]; simpl in Hi.
  - injection Hi as ->. rewrite Forall_forall in Hall.
    apply Hall. apply list_elem_of_In. eapply list_elem_of_lookup_2. exact Hj.
  - apply (IH i j); [assumption|assumption|lia].
Qed.

(** Events other than [RunEnded] pass through the bus without touching the
    leaderboard. *)
Lemma other_events_keep_scores (e : GameEvent) (observers : list ObserverRef) (g : Game) :
  (∀ elapsed mode, e ≠ RunEnded elapsed mode) →
  score_manager (foldl (notify e) g observers) = score_manager g.
Proof.
  intros Hother. revert g.
  induction observers as [|o observers IH]; intros g; [reflexivity|].
  simpl. rewrite IH. destruct o; [|reflexivity].
  destruct e; try reflexivity. by destruct (Hother elapsed mode).
Qed.

(** The game-over screen: five fixed items, then one line per entry that
    [top_scores(5, mode_name)] returns for the active mode. *)
Lemma render_game_over_scores (cfg : Config) (format_seconds : Qc → string)
    (text_width : Font → string → Z) (final_score : option Qc) (g : Game) :
  ∃ header,
    length header = 5%nat
    ∧ (_render_game_over cfg format_seconds text_width final_score g).2
      = Returned
          (header
           ++ imap (λ i value,
                      BlitText DefaultFont
                        (pretty (Z.of_nat (S i)) +:+ ". " +:+ format_seconds value)
                        (HUD_TEXT_COLOR cfg)
                        (GAME_WIDTH cfg `div` 2 - 80,
                         GAME_HEIGHT cfg `div` 2 + 36 + Z.of_nat (S i) * 26))
                   (ScoreManager.top_scores 5
                      (GameModeContext.get_mode_name (game_mode_context g))
                      (score_manager g)).1).
Proof.
  eexists [_; _; _; _; _]. split; [reflexivity|].
  unfold _render_game_over. run_method. reflexivity.
Qed.

(** C2: for every mode name and every leaderboard, [top_scores(5, mode)]
    returns at most 5 entries, in descending order of time; the call leaves
    the leaderboard as it was, so a second call returns the same sequence,
    also when events other than [RunEnded] were published in between; the
    game-over screen draws one line per entry returned, so at most five. *)
Theorem top_scores_at_most_five_descending_stable (mode : string) (g : Game) :
  let first := on_score_manager (ScoreManager.top_scores 5 mode) g in
  (∃ top, first.2 = Returned top
     ∧ top = (ScoreManager.top_scores 5 mode (score_manager g)).1
     ∧ (length top ≤ 5)%nat
     ∧ StronglySorted (λ a b, (b ≤ a)%Qc) top
     ∧ (∀ i j a b, top !! i = Some a → top !! j = Some b → (i ≤ j)%nat → (b ≤ a)%Qc))
  ∧ first.1 = g
  ∧ (on_score_manager (ScoreManager.top_scores 5 mode) first.1).2 = first.2
  ∧ (∀ e, (∀ elapsed m, e ≠ RunEnded elapsed m) →
       (on_score_manager (ScoreManager.top_scores 5 mode) (publish e first.1).1).2
       = first.2)
  ∧ ∀ cfg format_seconds text_width final_score,
      ∃ header score_lines,
        (_render_game_over cfg format_seconds text_width final_score g).2
        = Returned (header ++ score_lines)
        ∧ length header = 5%nat
        ∧ (length score_lines ≤ 5)%nat.
Proof.
  cbv zeta.
  assert (Hsame : (on_score_manager (ScoreManager.top_scores 5 mode) g).1 = g).
  { destruct g; reflexivity. }
  pose proof (top_scores_descending 5 mode (score_manager g)) as Hsorted.
  split; [|split; [exact Hsame|split]].
  - eexists. split; [reflexivity|]. split; [reflexivity|]. split; [|split].
    + simpl. rewrite length_take. lia.
    + exact Hsorted.
    + intros i j a b Hi Hj Hij.
      destruct (decide (i = j)) as [->|Hne].
      * rewrite Hi in Hj. injection Hj as ->. reflexivity.
      * assert (Hlt : (i < j)%nat) by lia.
        exact (strongly_sorted_lookup _ _ _ _ _ _ Hsorted Hi Hj Hlt).
  - rewrite Hsame. reflexivity.
  - split.
    + intros e Hother. rewrite Hsame.
      unfold on_score_manager, publish, modify. simpl.
      rewrite other_events_keep_scores by exact Hother. reflexivity.
    + intros cfg format_seconds text_width final_score.
      destruct (render_game_over_scores cfg format_seconds text_width final_score g)
        as (header & Hheader & Hdrawn).
      eexists header, _. split; [exact Hdrawn|]. split; [exact Hheader|].
      rewrite length_imap. simpl. rewrite length_take. lia.
Qed.

(** ** The main loop *)

Section LoopFacts.

Variable handle_event : Event → Game → Game.
Variable update : Qc → Game → Game.
Variable render : Game → Game.

Local Abbreviation tick := (tick_body handle_event update render).
Local Abbreviation after := (after_ticks handle_event update render).
Local Abbreviation loop := (run_from handle_event update render).

Lemma after_ticks_nil (n : nat) (w : Game * list Call) : after n [] w = w.
Proof. unfold after_ticks. rewrite take_nil. reflexivity. Qed.

Lemma after_ticks_zero (script : list Tick) (w : Game * list Call) : after 0 script w = w.
Proof. reflexivity. Qed.

Lemma after_ticks_succ (n : nat) (t : Tick) (script : list Tick) (w : Game * list Call) :
  after (S n) (t :: script) w = after n script (tick t w).
Proof. reflexivity. Qed.

(** The loop runs bodies up to the first loop head at which the condition is
    false, and stops there; if there is none within the script it is still
    looping when the script ends. *)
Lemma run_from_first_false (script : list Tick) (w : Game * list Call) :
  ∃ n, (n ≤ length script)%nat
    ∧ (∀ k, (k < n)%nat → loop_condition (after k script w).1 = true)
    ∧ ((loop_condition (after n script w).1 = false
        ∧ loop script w = Exited (after n script w).1
                                 ((after n script w).2 ++ [CallPygameQuit]))
       ∨ (n = length script
          ∧ loop_condition (after n script w).1 = true
          ∧ loop script w = StillLooping (after n script w).1 (after n script w).2)).
Proof.
  revert w. induction script as [|t script IH]; intros w.
  - exists 0%nat. split; [reflexivity|]. split; [intros k Hk; lia|].
    rewrite after_ticks_zero. simpl.
    destruct (loop_condition w.1) eqn:Hcond; [right|left]; repeat split; reflexivity.
  - destruct (loop_condition w.1) eqn:Hcond.
    + destruct (IH (tick t w)) as (n & Hn & Hbefore & Hat).
      exists (S n). split; [simpl; lia|]. split.
      * intros [|k] Hk; [exact Hcond|].
        rewrite after_ticks_succ. apply Hbefore. lia.
      * rewrite after_ticks_succ. simpl. rewrite Hcond.
        destruct Hat as [(Hfalse & Hexit)|(Hlen & Htrue & Hgoing)]; [left|right].
        -- split; assumption.
        -- split; [simpl; congruence|]. split; assumption.
    + exists 0%nat. split; [simpl; lia|]. split; [intros k Hk; lia|].
      left. rewrite after_ticks_zero. simpl. rewrite Hcond. split; reflexivity.
Qed.

(** Once the loop has exited, ticks that would have followed are not run. *)
Lemma run_from_exited_more (script more : list Tick) (w : Game * list Call)
    (g : Game) (log : list Call) :
  loop script w = Exited g log → loop (script ++ more) w = Exited g log.
Proof.
  revert w. induction script as [|t script IH]; intros w; simpl.
  - destruct (loop_condition w.1) eqn:Hcond; [discriminate|].
    intros H. destruct more; simpl; rewrite Hcond; exact H.
  - destruct (loop_condition w.1); [apply IH|trivial].
Qed.

Hypothesis handle_event_keeps_running : ∀ e g, running (handle_event e g) = running g.
Hypothesis update_keeps_running : ∀ dt g, running (update dt g) = running g.
Hypothesis render_keeps_running : ∀ g, running (render g) = running g.

Lemma dispatch_all_running (events : list Event) (w : Game * list Call) :
  running (foldl (dispatch handle_event) w events).1
  = running w.1 && negb (has_quit events).
Proof.
  revert w. induction events as [|e events IH]; intros w; simpl.
  - rewrite andb_true_r. reflexivity.
  - rewrite IH. unfold dispatch.
    destruct (decide (ev_type e = pygame_QUIT)) as [Hquit|Hother]; simpl.
    + rewrite (bool_decide_eq_true_2 _ Hquit). simpl. rewrite andb_false_r. reflexivity.
    + rewrite (bool_decide_eq_false_2 _ Hother), handle_event_keeps_running. reflexivity.
Qed.

Lemma tick_body_running (t : Tick) (w : Game * list Call) :
  running (tick t w).1 = running w.1 && negb (has_quit (event_queue t)).
Proof.
  unfold tick_body. simpl.
  rewrite render_keeps_running, update_keeps_running. apply dispatch_all_running.
Qed.

Lemma after_ticks_running (n : nat) (script : list Tick) (w : Game * list Call) :
  running (after n script w).1 = running w.1 && negb (quit_observed (take n script)).
Proof.
  revert n w. induction script as [|t script IH]; intros n w.
  - rewrite after_ticks_nil, take_nil. simpl. rewrite andb_true_r. reflexivity.
  - destruct n as [|n].
    + rewrite after_ticks_zero. simpl. rewrite andb_true_r. reflexivity.
    + rewrite after_ticks_succ, IH, tick_body_running. simpl.
      rewrite negb_orb, andb_assoc. reflexivity.
Qed.

(** C4: the body of the main loop runs only from loop heads at which no quit
    event has been seen and [game_running] is set; the loop exits at the
    first head at which a quit event has been observed ([running] cleared)
    or [game_running] is cleared, after exactly the ticks before it, and
    ticks that would follow are never run; with no such head in the script
    the loop is still going at its end.  The handlers are taken not to
    assign [running] themselves, as in the source, where only the quit
    branch does. *)
Theorem run_exits_exactly_on_quit_or_stop (script : list Tick) (g : Game) :
  running g = true →
  ∃ n, (n ≤ length script)%nat
    ∧ (∀ k, (k < n)%nat →
         quit_observed (take k script) = false
         ∧ running (after k script (g, [])).1 = true
         ∧ GameState.game_running (game_state (after k script (g, [])).1) = true)
    ∧ (((quit_observed (take n script) = true
         ∨ GameState.game_running (game_state (after n script (g, [])).1) = false)
        ∧ run handle_event update render script g
          = Exited (after n script (g, [])).1
                   ((after n script (g, [])).2 ++ [CallPygameQuit])
        ∧ ∀ more, run handle_event update render (script ++ more) g
                  = run handle_event update render script g)
       ∨ (n = length script
          ∧ quit_observed script = false
          ∧ GameState.game_running (game_state (after n script (g, [])).1) = true
          ∧ run handle_event update render script g
            = StillLooping (after n script (g, [])).1 (after n script (g, [])).2)).
Proof.
  intros Hrunning. unfold run.
  destruct (run_from_first_false script (g, [])) as (n & Hn & Hbefore & Hat).
  assert (Hflag : ∀ k, running (after k script (g, [])).1
                       = negb (quit_observed (take k script))).
  { intros k. rewrite after_ticks_running. simpl. rewrite Hrunning. reflexivity. }
  exists n. split; [exact Hn|]. split.
  - intros k Hk. specialize (Hbefore k Hk). unfold loop_condition in Hbefore.
    apply andb_true_iff in Hbefore as [Hrun Hgame].
    split; [|split; assumption].
    rewrite Hflag in Hrun. apply negb_true_iff. exact Hrun.
  - destruct Hat as [(Hfalse & Hexit)|(Hlen & Htrue & Hgoing)]; [left|right].
    + split; [|split].
      * unfold loop_condition in Hfalse. apply andb_false_iff in Hfalse as [Hrun|Hgame].
        -- left. rewrite Hflag in Hrun. apply negb_false_iff. exact Hrun.
        -- right. exact Hgame.
      * exact Hexit.
      * intros more. rewrite Hexit. apply run_from_exited_more. exact Hexit.
    + unfold loop_condition in Htrue. apply andb_true_iff in Htrue as [Hrun Hgame].
      split; [exact Hlen|]. split; [|split; assumption].
      rewrite Hflag in Hrun. apply negb_true_iff in Hrun.
      rewrite Hlen, take_ge in Hrun by lia. exact Hrun.
Qed.

End LoopFacts.

Lemma escape_handle_event_keeps_running (e : Event) (g : Game) :
  running (escape_handle_event e g) = running g.
Proof. unfold escape_handle_event. destruct (decide (ev_key e = 27)); reflexivity. Qed.

(** A script of four ticks: nothing, the Escape key, a quit event, nothing. *)
Lemma run_exits_exactly_on_quit_or_stop_witness :
  let script := [mkTick 16 []; mkTick 17 [mkEvent 768 27]; mkTick 16 [mkEvent 256 0];
                 mkTick 16 []] in
  running sample_game = true
  ∧ ∃ n, (n ≤ 4)%nat
      ∧ run escape_handle_event idle_update idle_render script sample_game
        = Exited (after_ticks escape_handle_event idle_update idle_render n script
                    (sample_game, [])).1
                 ((after_ticks escape_handle_event idle_update idle_render n script
                     (sample_game, [])).2 ++ [CallPygameQuit]).
Proof.
  intros script.
  assert (Hrunning : running sample_game = true) by (vm_compute; reflexivity).
  split; [exact Hrunning|].
  destruct (run_exits_exactly_on_quit_or_stop escape_handle_event idle_update idle_render
              escape_handle_event_keeps_running (λ _ _, eq_refl) (λ _, eq_refl) script
              sample_game Hrunning)
    as (n & Hn & _ & [(_ & Hexit & _)|(_ & Hnoquit & _)]).
  - exists n. split; [exact Hn|exact Hexit].
  - vm_compute in Hnoquit. discriminate Hnoquit.
Defined.

(** ** The calls of a tick *)

(** The calls the event loop of one tick dispatches: one [handle_event] per
    event that is not a quit event, in queue order. *)
Lemma dispatch_all_log (handle_event : Event → Game → Game) (events : list Event)
    (w : Game * list Call) :
  (foldl (dispatch handle_event) w events).2
  = w.2 ++ (CallHandleEvent <$> filter (λ e, ev_type e ≠ pygame_QUIT) events).
Proof.
  revert w. induction events as [|e events IH]; intros w; simpl.
  - rewrite app_nil_r. reflexivity.
  - rewrite IH. unfold dispatch.
    destruct (decide (ev_type e = pygame_QUIT)) as [Hquit|Hother]; simpl.
    + rewrite filter_cons_False by (intros H; exact (H Hquit)). reflexivity.
    + rewrite filter_cons_True by exact Hother. simpl.
      rewrite <- app_assoc. reflexivity.
Qed.

(** * Further properties of [game_main.py] *)

(** ** Mode selection and run initialisation *)

(** X3: starting a run changes nothing but the run itself: the selected mode
    and strategy, the leaderboard, the attached observers, both loop flags, the
    state of the machine, the background, what has been printed and every
    timer of another event type are as before [initialize_game]. *)
Theorem initialize_game_keeps_session (tbl : Strategy.Table) (SPAWN_EVENT : Z) (g : Game) :
  let g' := (initialize_game tbl SPAWN_EVENT g).1 in
  game_state g' = game_state g
  ∧ game_mode_context g' = game_mode_context g
  ∧ score_manager g' = score_manager g
  ∧ event_manager g' = event_manager g
  ∧ running g' = running g
  ∧ screen g' = screen g
  ∧ final_score g' = final_score g
  ∧ background_image g' = background_image g
  ∧ stdout g' = stdout g
  ∧ ∀ event, event ≠ SPAWN_EVENT → timers g' !! event = timers g !! event.
Proof.
  cbv zeta. rewrite initialize_game_result. cbn.
  repeat (split; [reflexivity|]).
  intros event Hother. apply lookup_insert_ne. congruence.
Qed.

(** X4: restarting at once is a restart: a second [initialize_game] right
    after a first leaves the game as the first did, except that the player is
    another object (same starting stats, the next identity). *)
Theorem initialize_game_twice (tbl : Strategy.Table) (SPAWN_EVENT : Z) (g : Game) :
  let once := (initialize_game tbl SPAWN_EVENT g).1 in
  let twice := (initialize_game tbl SPAWN_EVENT once).1 in
  set_player None (set_next_object 0 twice) = set_player None (set_next_object 0 once)
  ∧ next_object twice = S (next_object once)
  ∧ ∃ p q, player once = Some p ∧ player twice = Some q
      ∧ player_id q = S (player_id p)
      ∧ health q = health p ∧ max_health q = max_health p
      ∧ player_pos q = player_pos p.
Proof.
  cbv zeta. rewrite !initialize_game_result. cbn.
  split; [|split; [reflexivity|]].
  - unfold set_player, set_next_object. cbn. f_equal. apply insert_insert_eq.
  - eexists _, _. repeat split; reflexivity.
Qed.

(** X5: projectiles spawned one after another are kept in spawning order
    behind those already in flight, and spawning touches nothing else; the
    next [initialize_game] discards all of them. *)
Theorem spawned_projectiles_accumulate (tbl : Strategy.Table) (SPAWN_EVENT : Z)
    (created : list Projectile) (g : Game) :
  let g' := foldl (λ game p, (spawn_projectile p game).1) g created in
  projectiles g' = projectiles g ++ created
  ∧ set_projectiles [] g' = set_projectiles [] g
  ∧ projectiles (initialize_game tbl SPAWN_EVENT g').1 = [].
Proof.
  cbv zeta.
  assert (H : ∀ l game,
            projectiles (foldl (λ game p, (spawn_projectile p game).1) game l)
            = projectiles game ++ l
            ∧ set_projectiles [] (foldl (λ game p, (spawn_projectile p game).1) game l)
              = set_projectiles [] game).
  { induction l as [|p l IH]; intros game; cbn [foldl].
    - rewrite app_nil_r. split; reflexivity.
    - destruct (IH (spawn_projectile p game).1) as [IH1 IH2].
      rewrite IH1, IH2. split; [|reflexivity].
      cbn. rewrite <- app_assoc. reflexivity. }
  destruct (H created g) as [H1 H2].
  split; [exact H1|]. split; [exact H2|].
  rewrite initialize_game_result. reflexivity.
Qed.

(** ** Rendering *)

(** X6: without a player object [render_game] draws the game-over screen
    whatever [game_over] says: before the first run a call with
    [game_over = False] draws exactly what a call with [game_over = True]
    draws. *)
Theorem render_game_without_player (cfg : Config) (format_seconds : Qc → string)
    (text_width : Font → string → Z) (elapsed_seconds : Qc) (final_score : option Qc)
    (g : Game) :
  player g = None →
  render_game cfg format_seconds text_width false elapsed_seconds final_score g
  = render_game cfg format_seconds text_width true elapsed_seconds final_score g
  ∧ ∃ screen_items,
      (_render_game_over cfg format_seconds text_width final_score g).2
      = Returned screen_items
      ∧ (render_game cfg format_seconds text_width false elapsed_seconds final_score g).2
        = Returned ([Fill (BACKGROUND_COLOR cfg); BlitSurface (background_image g) (0, 0)]
                    ++ screen_items).
Proof.
  intros Hnone. split.
  - unfold render_game. run_method. rewrite Hnone. reflexivity.
  - eexists. split.
    + unfold _render_game_over. run_method. reflexivity.
    + unfold render_game, _render_game_over. run_method. rewrite Hnone. reflexivity.
Qed.

Lemma render_game_without_player_witness :
  player sample_game = None
  ∧ render_game sample_cfg sample_format_seconds sample_text_width false 0%Qc None
      sample_game
    = render_game sample_cfg sample_format_seconds sample_text_width true 0%Qc None
        sample_game.
Proof.
  assert (Hnone : player sample_game = None) by (vm_compute; reflexivity).
  split; [exact Hnone|].
  exact (proj1 (render_game_without_player sample_cfg sample_format_seconds
                  sample_text_width 0%Qc None sample_game Hnone)).
Defined.

(** X7: while a run is shown, [render_game] draws the background, the player,
    one item per projectile, one per warning indicator, the hearts and the
    time, and the nightmare statistics in nightmare mode only: the number of
    items is [6 + projectiles + warnings] there and [5 + projectiles +
    warnings] in every other mode, where no nightmare statistics are drawn;
    nothing of the game-over screen is drawn. *)
Theorem render_game_playing_items (cfg : Config) (format_seconds : Qc → string)
    (text_width : Font → string → Z) (elapsed_seconds : Qc) (final_score : option Qc)
    (g : Game) (p : Player) :
  player g = Some p →
  ∃ items,
    (render_game cfg format_seconds text_width false elapsed_seconds final_score g).2
    = Returned items
    ∧ length items
      = (5 + length (projectiles g) + length (warning_indicators g)
         + (if decide (GameModeContext.get_mode_name (game_mode_context g) = "nightmare")
            then 1 else 0))%nat
    ∧ (GameModeContext.get_mode_name (game_mode_context g) ≠ "nightmare" →
       ∀ dodged target, DrawNightmareStats dodged target ∉ items)
    ∧ (∀ size c topleft, BlitOverlay size c topleft ∉ items)
    ∧ (∀ f text c at_, (BlitText f text c at_ ∉ items)
                       ∧ (BlitTextCentered f text c at_ ∉ items)).
Proof.
  intros Hplayer. eexists. split; [apply (render_game_playing _ _ _ _ p _ _ Hplayer)|].
  assert (Hnot : ∀ (x : DrawCmd) (tail : list DrawCmd),
            (∀ q, x ≠ DrawProjectile q) → (∀ w, x ≠ DrawWarning w) →
            x ≠ Fill (BACKGROUND_COLOR cfg) →
            x ≠ BlitSurface (background_image g) (0, 0) →
            x ≠ DrawPlayer p →
            x ≠ DrawHearts (health p) (max_health p)
                  (GameModeContext.get_mode_name (game_mode_context g)) →
            x ≠ DrawTime elapsed_seconds →
            x ∉ tail →
            x ∉ [Fill (BACKGROUND_COLOR cfg); BlitSurface (background_image g) (0, 0)]
                ++ [DrawPlayer p]
                ++ (DrawProjectile <$> projectiles g)
                ++ (DrawWarning <$> warning_indicators g)
                ++ [DrawHearts (health p) (max_health p)
                      (GameModeContext.get_mode_name (game_mode_context g));
                    DrawTime elapsed_seconds]
                ++ tail).
  { intros x tail Hq Hw H1 H2 H3 H4 H5 Htail Hin.
    rewrite !elem_of_app, !elem_of_cons, !list_elem_of_fmap, !elem_of_nil in Hin.
    destruct Hin as [[?|[?|[]]]|[[?|[]]|[(q & ? & _)|[(w & ? & _)|[[?|[?|[]]]|?]]]]];
      try contradiction.
    - exact (Hq q H).
    - exact (Hw w H). }
  assert (Htail : ∀ x : DrawCmd,
            (∀ dodged target, x ≠ DrawNightmareStats dodged target) →
            x ∉ (if decide (GameModeContext.get_mode_name (game_mode_context g)
                            = "nightmare")
                 then [DrawNightmareStats
                         (StatsObserver.projectiles_dodged (stats_observer g))
                         (next_heart_at (stats_observer g))]
                 else [])).
  { intros x Hx. destruct (decide (_ = "nightmare")).
    - rewrite list_elem_of_singleton. apply Hx.
    - apply not_elem_of_nil. }
  split; [|split; [|split]].
  - rewrite !length_app, !length_fmap.
    destruct (decide (_ = "nightmare")); simpl; lia.
  - intros Hmode dodged target.
    apply Hnot; try discriminate.
    rewrite decide_False by exact Hmode. apply not_elem_of_nil.
  - intros size c topleft. apply Hnot; try discriminate. apply Htail. discriminate.
  - intros f text c at_.
    split; (apply Hnot; try discriminate; apply Htail; discriminate).
Qed.

Lemma render_game_playing_items_witness :
  player sample_game_playing = Some (mkPlayer 0 3 3 (400, 500))
  ∧ ∃ items,
      (render_game sample_cfg sample_format_seconds sample_text_width false
         0%Qc None sample_game_playing).2 = Returned items
      ∧ length items = 5%nat.
Proof.
  assert (Hplayer : player sample_game_playing = Some (mkPlayer 0 3 3 (400, 500)))
    by (vm_compute; reflexivity).
  split; [exact Hplayer|].
  destruct (render_game_playing_items sample_cfg sample_format_seconds sample_text_width
              0%Qc None sample_game_playing _ Hplayer) as (items & Hitems & Hlen & _).
  exists items. split; [exact Hitems|].
  rewrite Hlen. vm_compute. reflexivity.
Defined.

(** X8: on the game-over screen the entry of rank [i + 1] returned by
    [top_scores(5, mode_name)] is the item after the five fixed ones at
    position [i]: it is labelled with its rank, starting at 1, and drawn 80
    pixels left of the centre line, [26 * (i + 1)] pixels below the
    leaderboard title; there are at most five such entries, and a missing
    final score is shown as "Score: 0.0s". *)
Theorem game_over_score_lines (cfg : Config) (format_seconds : Qc → string)
    (text_width : Font → string → Z) (final_score : option Qc) (g : Game)
    (i : nat) (value : Qc) :
  (ScoreManager.top_scores 5 (GameModeContext.get_mode_name (game_mode_context g))
     (score_manager g)).1 !! i = Some value →
  ∃ items title,
    (_render_game_over cfg format_seconds text_width final_score g).2 = Returned items
    ∧ (i < 5)%nat
    ∧ items !! 4%nat
      = Some (BlitText DefaultFont title (HUD_TEXT_COLOR cfg)
                (GAME_WIDTH cfg `div` 2 - text_width DefaultFont title `div` 2,
                 GAME_HEIGHT cfg `div` 2 + 36))
    ∧ items !! (5 + i)%nat
      = Some (BlitText DefaultFont
                (pretty (Z.of_nat i + 1) +:+ ". " +:+ format_seconds value)
                (HUD_TEXT_COLOR cfg)
                (GAME_WIDTH cfg `div` 2 - 80,
                 (GAME_HEIGHT cfg `div` 2 + 36) + 26 * (Z.of_nat i + 1)))
    ∧ (final_score = None →
       items !! 2%nat
       = Some (BlitTextCentered DefaultFont "Score: 0.0s" (HUD_TEXT_COLOR cfg)
                 (GAME_WIDTH cfg `div` 2, GAME_HEIGHT cfg `div` 2 - 60))).
Proof.
  intros Hentry.
  assert (Hrank : (i < 5)%nat).
  { apply lookup_lt_Some in Hentry. simpl in Hentry.
    rewrite length_take in Hentry. lia. }
  eexists _, _. split.
  { unfold _render_game_over. run_method. reflexivity. }
  split; [exact Hrank|]. split; [reflexivity|]. split.
  - rewrite lookup_app_r by (simpl; lia).
    replace (5 + i - _)%nat with i by (simpl; lia).
    rewrite list_lookup_imap. simpl in Hentry. rewrite Hentry. simpl.
    do 3 f_equal.
    + rewrite Nat2Z.inj_succ. unfold Z.succ. reflexivity.
    + f_equal. rewrite Nat2Z.inj_succ. unfold Z.succ. lia.
  - intros ->. reflexivity.
Qed.

Lemma game_over_score_lines_witness :
  (ScoreManager.top_scores 5
     (GameModeContext.get_mode_name (game_mode_context sample_game))
     (score_manager sample_game)).1 !! 1%nat = Some (Q2Qc (48 # 1))
  ∧ ∃ items,
      (_render_game_over sample_cfg sample_format_seconds sample_text_width None
         sample_game).2 = Returned items
      ∧ items !! 6%nat
        = Some (BlitText DefaultFont
                  (pretty (Z.of_nat 1 + 1) +:+ ". " +:+ sample_format_seconds (Q2Qc (48 # 1)))
                  (HUD_TEXT_COLOR sample_cfg)
                  (GAME_WIDTH sample_cfg `div` 2 - 80,
                   (GAME_HEIGHT sample_cfg `div` 2 + 36) + 26 * (Z.of_nat 1 + 1))).
Proof.
  assert (Hentry : (ScoreManager.top_scores 5
                      (GameModeContext.get_mode_name (game_mode_context sample_game))
                      (score_manager sample_game)).1 !! 1%nat = Some (Q2Qc (48 # 1)))
    by (vm_compute; reflexivity).
  split; [exact Hentry|].
  destruct (game_over_score_lines sample_cfg sample_format_seconds sample_text_width
              None sample_game 1 (Q2Qc (48 # 1)) Hentry)
    as (items & title & Hitems & _ & _ & Hline & _).
  exists items. split; [exact Hitems|exact Hline].
Defined.

(** ** Asset loading, the constructor and the entry point *)

(** The three ways [_load_assets] can complete. *)
Lemma load_assets_cases (cfg : Config) (pg : Pygame) (g : Game) :
  (∃ loaded converted scaled,
      image_load pg (BACKGROUND_IMAGE cfg) = Returned loaded
      ∧ surface_convert pg loaded = Returned converted
      ∧ transform_scale pg converted (GAME_WIDTH cfg, GAME_HEIGHT cfg) = Returned scaled
      ∧ _load_assets cfg pg g = (set_background_image (Some scaled) g, Returned tt))
  ∨ _load_assets cfg pg g
    = (set_background_image
         (Some (mkSurface (GAME_WIDTH cfg, GAME_HEIGHT cfg)
                  (SolidFill (BACKGROUND_COLOR cfg))))
         (set_stdout
            (stdout g ++ ["Warning: Could not load background image from "
                          +:+ BACKGROUND_IMAGE cfg]) g),
       Returned tt)
  ∨ (∃ e g', caught_by_load_assets e = false
       ∧ _load_assets cfg pg g = (g', Raised e)
       ∧ set_background_image None g' = set_background_image None g).
Proof.
  unfold _load_assets, try_except. run_method.
  destruct (image_load pg (BACKGROUND_IMAGE cfg)) as [loaded|e] eqn:Hl.
  - destruct (surface_convert pg loaded) as [converted|e] eqn:Hc.
    + destruct (transform_scale pg converted (GAME_WIDTH cfg, GAME_HEIGHT cfg))
        as [scaled|e] eqn:Hs.
      * left. exists loaded, converted, scaled.
        repeat (split; [first [assumption|reflexivity]|]). destruct g; reflexivity.
      * destruct (caught_by_load_assets e) eqn:Hcaught.
        -- right; left. destruct g; reflexivity.
        -- right; right. eexists e, _. split; [exact Hcaught|].
           split; [reflexivity|]. destruct g; reflexivity.
    + destruct (caught_by_load_assets e) eqn:Hcaught.
      * right; left. reflexivity.
      * right; right. exists e, g. split; [exact Hcaught|]. split; reflexivity.
  - destruct (caught_by_load_assets e) eqn:Hcaught.
    + right; left. reflexivity.
    + right; right. exists e, g. split; [exact Hcaught|]. split; reflexivity.
Qed.

(** X9: whatever pygame does, [_load_assets] either returns normally with a
    background installed (the scaled image with nothing printed, or the
    solid-colour fallback with one warning line), or raises an exception that
    is neither [pygame.error] nor [FileNotFoundError] with nothing printed; it
    never returns without a background and it touches no other attribute. *)
Theorem load_assets_outcomes (cfg : Config) (pg : Pygame) (g : Game) :
  let r := _load_assets cfg pg g in
  set_stdout [] (set_background_image None r.1)
  = set_stdout [] (set_background_image None g)
  ∧ ((r.2 = Returned tt
      ∧ ((∃ scaled, background_image r.1 = Some scaled ∧ stdout r.1 = stdout g)
         ∨ (background_image r.1
            = Some (mkSurface (GAME_WIDTH cfg, GAME_HEIGHT cfg)
                      (SolidFill (BACKGROUND_COLOR cfg)))
            ∧ stdout r.1
              = stdout g ++ ["Warning: Could not load background image from "
                             +:+ BACKGROUND_IMAGE cfg])))
     ∨ (∃ e, r.2 = Raised e
          ∧ caught_by_load_assets e = false
          ∧ stdout r.1 = stdout g)).
Proof.
  cbv zeta.
  destruct (load_assets_cases cfg pg g)
    as [(loaded & converted & scaled & _ & _ & _ & ->)| [->|(e & g' & Hcaught & -> & Hsame)]];
    cbn [fst snd].
  - split; [destruct g; reflexivity|]. left. split; [reflexivity|].
    left. exists scaled. split; reflexivity.
  - split; [destruct g; reflexivity|]. left. split; [reflexivity|].
    right. split; reflexivity.
  - split; [rewrite Hsame; reflexivity|]. right. exists e.
    split; [reflexivity|]. split; [exact Hcaught|].
    change (stdout (set_background_image None g') = stdout (set_background_image None g)).
    rewrite Hsame. reflexivity.
Qed.

(** What the constructor makes of the game [_load_assets] returned. *)
Lemma init_after_load (cfg : Config) (pg : Pygame) (gs : GameState.t)
    (stored : gmap string (list Qc)) (loaded : Game) :
  _load_assets cfg pg (blank gs stored) = (loaded, Returned tt) →
  __init__ cfg pg gs stored
  = (mkGame (background_image loaded) gs [ScoreObserverRef; StatsObserverRef]
       (StatsObserver.mk 0 0) (GameModeContext.mk Strategy.NormalModeStrategy) stored
       None [] [] true (current_spawn_interval loaded) Menu (final_score loaded)
       (timers loaded) (stdout loaded) (next_object loaded),
     Returned tt).
Proof.
  intros Hload. unfold __init__. rewrite (bind_returned _ _ _ _ _ Hload). reflexivity.
Qed.

(** X10: an exception from loading the background that is neither
    [pygame.error] nor [FileNotFoundError] is not caught anywhere: the
    constructor raises it, and [main] ends with it before the loop is entered
    (no tick is dispatched and [pygame.quit] is not called). *)
Theorem uncaught_load_error_ends_main (cfg : Config) (pg : Pygame) (gs : GameState.t)
    (stored : gmap string (list Qc)) (handle_event : Event → Game → Game)
    (update : Qc → Game → Game) (render : Game → Game) (script : list Tick) (e : Exn) :
  image_load pg (BACKGROUND_IMAGE cfg) = Raised e →
  caught_by_load_assets e = false →
  (__init__ cfg pg gs stored).2 = Raised e
  ∧ stdout (__init__ cfg pg gs stored).1 = []
  ∧ main cfg pg gs stored handle_event update render script = Raised e.
Proof.
  intros Hload Hcaught.
  assert (Hassets : _load_assets cfg pg (blank gs stored) = (blank gs stored, Raised e)).
  { unfold _load_assets, try_except. unfold mbind at 1, M_bind at 1, lift at 1.
    rewrite Hload, Hcaught. reflexivity. }
  assert (Hinit : __init__ cfg pg gs stored = (blank gs stored, Raised e)).
  { unfold __init__. unfold mbind at 1, M_bind at 1. rewrite Hassets. reflexivity. }
  unfold main. rewrite Hinit. repeat split.
Qed.

Lemma uncaught_load_error_ends_main_witness :
  main sample_cfg sample_pygame_denied (GameState.mk "normal" true) sample_stored
       idle_handle_event idle_update idle_render [mkTick 16 []]
  = Raised (OtherException "PermissionError").
Proof.
  apply (uncaught_load_error_ends_main sample_cfg sample_pygame_denied
           (GameState.mk "normal" true) sample_stored idle_handle_event idle_update
           idle_render [mkTick 16 []] (OtherException "PermissionError")
           eq_refl eq_refl).
Defined.

(** X11: when the constructor returns, the game starts in the menu with
    [running] set, no player, no timer armed and the process-wide [GameState]
    it was handed; so [main] dispatches its first tick exactly when that
    [GameState] has [game_running] set, and otherwise calls [pygame.quit]
    without having run a tick, whatever the script holds. *)
Theorem main_first_tick (cfg : Config) (pg : Pygame) (gs : GameState.t)
    (stored : gmap string (list Qc)) (handle_event : Event → Game → Game)
    (update : Qc → Game → Game) (render : Game → Game) (script : list Tick) (g : Game) :
  __init__ cfg pg gs stored = (g, Returned tt) →
  screen g = Menu ∧ running g = true ∧ player g = None ∧ timers g = ∅
  ∧ game_state g = gs
  ∧ event_manager g = [ScoreObserverRef; StatsObserverRef]
  ∧ (GameState.game_running gs = false →
     main cfg pg gs stored handle_event update render script
     = Returned (Exited g [CallPygameQuit]))
  ∧ (GameState.game_running gs = true →
     ∀ t rest, script = t :: rest →
       main cfg pg gs stored handle_event update render script
       = Returned (run_from handle_event update render rest
                     (tick_body handle_event update render t (g, [])))).
Proof.
  intros Hinit.
  assert (Hfields : screen g = Menu ∧ running g = true ∧ player g = None
                    ∧ timers g = ∅ ∧ game_state g = gs
                    ∧ event_manager g = [ScoreObserverRef; StatsObserverRef]).
  { destruct (load_assets_cases cfg pg (blank gs stored))
      as [(l & c & s & _ & _ & _ & Hload)| [Hload|(e & g' & _ & Hload & _)]].
    - rewrite (init_after_load _ _ _ _ _ Hload) in Hinit.
      injection Hinit as <-. repeat split.
    - rewrite (init_after_load _ _ _ _ _ Hload) in Hinit.
      injection Hinit as <-. repeat split.
    - unfold __init__ in Hinit. unfold mbind at 1, M_bind at 1 in Hinit.
      rewrite Hload in Hinit. discriminate Hinit. }
  destruct Hfields as (Hscreen & Hrunning & Hplayer & Htimers & Hstate & Hobs).
  repeat (split; [assumption|]).
  unfold main, run. rewrite Hinit. split.
  - intros Hstopped. f_equal.
    destruct script; simpl; unfold loop_condition;
      rewrite Hstate, Hstopped, andb_false_r; reflexivity.
  - intros Hgoing t rest ->. f_equal. simpl. unfold loop_condition.
    rewrite Hstate, Hgoing, Hrunning. reflexivity.
Qed.

Lemma main_first_tick_witness :
  __init__ sample_cfg sample_pygame (GameState.mk "normal" false) sample_stored
  = (set_game_state (GameState.mk "normal" false) sample_game, Returned tt)
  ∧ main sample_cfg sample_pygame (GameState.mk "normal" false) sample_stored
         idle_handle_event idle_update idle_render [mkTick 16 []; mkTick 16 []]
    = Returned (Exited (set_game_state (GameState.mk "normal" false) sample_game)
                       [CallPygameQuit]).
Proof.
  assert (Hinit : __init__ sample_cfg sample_pygame (GameState.mk "normal" false)
                    sample_stored
                  = (set_game_state (GameState.mk "normal" false) sample_game,
                     Returned tt)) by (vm_compute; reflexivity).
  split; [exact Hinit|].
  destruct (main_first_tick sample_cfg sample_pygame (GameState.mk "normal" false)
              sample_stored idle_handle_event idle_update idle_render
              [mkTick 16 []; mkTick 16 []] _ Hinit)
    as (_ & _ & _ & _ & _ & _ & Hstopped & _).
  exact (Hstopped eq_refl).
Defined.

(** ** The trace of a run *)

Lemma tick_body_log (handle_event : Event → Game → Game) (update : Qc → Game → Game)
    (render : Game → Game) (t : Tick) (w : Game * list Call) :
  (tick_body handle_event update render t w).2 = w.2 ++ tick_calls t.
Proof.
  unfold tick_body, tick_calls. simpl. rewrite dispatch_all_log.
  rewrite <- !app_assoc. reflexivity.
Qed.

Lemma after_ticks_log (handle_event : Event → Game → Game) (update : Qc → Game → Game)
    (render : Game → Game) (n : nat) (script : list Tick) (w : Game * list Call) :
  (after_ticks handle_event update render n script w).2
  = w.2 ++ mjoin (tick_calls <$> take n script).
Proof.
  revert n w. induction script as [|t script IH]; intros n w.
  - rewrite after_ticks_nil, take_nil. simpl. rewrite app_nil_r. reflexivity.
  - destruct n as [|n].
    + rewrite after_ticks_zero. simpl. rewrite app_nil_r. reflexivity.
    + rewrite after_ticks_succ, IH, tick_body_log. simpl.
      rewrite <- app_assoc. reflexivity.
Qed.

Lemma tick_calls_no_quit_forwarded (t : Tick) (e : Event) :
  CallHandleEvent e ∈ tick_calls t → e ∈ event_queue t ∧ ev_type e ≠ pygame_QUIT.
Proof.
  unfold tick_calls. rewrite elem_of_app, list_elem_of_fmap.
  intros [(e' & [= ->] & Hin)|Hin].
  - apply list_elem_of_filter in Hin as [Hother Hin]. split; assumption.
  - repeat (apply elem_of_cons in Hin as [Hin|Hin]; [discriminate Hin|]).
    by apply elem_of_nil in Hin.
Qed.

(** X12: the calls a run dispatches are, tick by tick in script order, one
    [handle_event] per queued event that is not a quit event, then [update],
    [render] and the display update, for the ticks it executes; when the loop
    exits, [pygame.quit] follows as the last call, once.  So a quit event is
    never passed to [handle_event], and every event that is passed was in
    the queue of an executed tick.  This holds whatever the handlers do. *)
Theorem run_trace (handle_event : Event → Game → Game) (update : Qc → Game → Game)
    (render : Game → Game) (script : list Tick) (g : Game) :
  ∃ n log,
    (n ≤ length script)%nat
    ∧ log = mjoin (tick_calls <$> take n script)
    ∧ ((∃ g', run handle_event update render script g
              = Exited g' (log ++ [CallPygameQuit]))
       ∨ (n = length script
          ∧ ∃ g', run handle_event update render script g = StillLooping g' log))
    ∧ (CallPygameQuit ∉ log)
    ∧ ∀ e, CallHandleEvent e ∈ log →
        ev_type e ≠ pygame_QUIT ∧ ∃ t, t ∈ take n script ∧ e ∈ event_queue t.
Proof.
  destruct (run_from_first_false handle_event update render script (g, []))
    as (n & Hn & _ & Hat).
  exists n, (mjoin (tick_calls <$> take n script)).
  split; [exact Hn|]. split; [reflexivity|].
  rewrite after_ticks_log in Hat. simpl in Hat. unfold run.
  split; [|split].
  - destruct Hat as [(_ & Hexit)|(Hlen & _ & Hgoing)]; [left|right]; eauto.
  - intros Hin. apply (list_elem_of_join _ (tick_calls <$> take n script)) in Hin as (calls & Hin & Hcalls).
    apply list_elem_of_fmap in Hcalls as (t & -> & _).
    unfold tick_calls in Hin. rewrite elem_of_app, list_elem_of_fmap in Hin.
    destruct Hin as [(e & He & _)|Hin]; [discriminate He|].
    repeat (apply elem_of_cons in Hin as [Hin|Hin]; [discriminate Hin|]).
    by apply elem_of_nil in Hin.
  - intros e Hin. apply (list_elem_of_join _ (tick_calls <$> take n script)) in Hin as (calls & Hin & Hcalls).
    apply list_elem_of_fmap in Hcalls as (t & -> & Ht).
    apply tick_calls_no_quit_forwarded in Hin as [Hqueue Hother].
    split; [exact Hother|]. exists t. split; assumption.
Qed.

(** X13: a quit event does not cut its tick short: in the tick that receives
    it the events queued behind it are still passed to [handle_event], and
    [update], [render] and the display update still run; the loop exits at
    the next loop head, with [pygame.quit] as the only call after them and
    the rest of the script untouched.  The handlers are taken not to assign
    [running]. *)
Theorem quit_tick_runs_to_its_end (handle_event : Event → Game → Game)
    (update : Qc → Game → Game) (render : Game → Game)
    (t : Tick) (rest : list Tick) (g : Game) :
  (∀ e g0, running (handle_event e g0) = running g0) →
  (∀ dt g0, running (update dt g0) = running g0) →
  (∀ g0, running (render g0) = running g0) →
  loop_condition g = true →
  has_quit (event_queue t) = true →
  run handle_event update render (t :: rest) g
  = Exited (tick_body handle_event update render t (g, [])).1
           (tick_calls t ++ [CallPygameQuit])
  ∧ (∀ before behind q e,
       event_queue t = before ++ q :: behind → ev_type q = pygame_QUIT →
       e ∈ behind → ev_type e ≠ pygame_QUIT → CallHandleEvent e ∈ tick_calls t)
  ∧ CallUpdate (Q2Qc (clock_tick t # 1000)) ∈ tick_calls t
  ∧ CallRender ∈ tick_calls t.
Proof.
  intros Hhe Hup Hre Hcond Hquit. split; [|split; [|split]].
  - unfold run. cbn [run_from fst]. rewrite Hcond.
    assert (Hstop : loop_condition (tick_body handle_event update render t (g, [])).1
                    = false).
    { unfold loop_condition.
      rewrite (tick_body_running handle_event update render Hhe Hup Hre), Hquit.
      rewrite andb_false_r. reflexivity. }
    destruct rest; cbn [run_from]; rewrite Hstop, tick_body_log; reflexivity.
  - intros before behind q e Hqueue _ Hin Hother.
    unfold tick_calls. apply elem_of_app. left.
    apply list_elem_of_fmap. exists e. split; [reflexivity|].
    apply list_elem_of_filter. split; [exact Hother|].
    rewrite Hqueue. apply elem_of_app. right. apply elem_of_cons. right. exact Hin.
  - unfold tick_calls. apply elem_of_app. right. apply elem_of_cons. left. reflexivity.
  - unfold tick_calls. apply elem_of_app. right.
    apply elem_of_cons. right. apply elem_of_cons. left. reflexivity.
Qed.

Lemma quit_tick_runs_to_its_end_witness :
  let t := mkTick 16 [mkEvent 768 13; mkEvent 256 0; mkEvent 768 32] in
  loop_condition sample_game = true
  ∧ has_quit (event_queue t) = true
  ∧ run escape_handle_event idle_update idle_render [t; mkTick 16 []] sample_game
    = Exited (tick_body escape_handle_event idle_update idle_render t (sample_game, [])).1
             (tick_calls t ++ [CallPygameQuit]).
Proof.
  intros t.
  assert (Hcond : loop_condition sample_game = true) by (vm_compute; reflexivity).
  assert (Hquit : has_quit (event_queue t) = true) by (vm_compute; reflexivity).
  split; [exact Hcond|]. split; [exact Hquit|].
  exact (proj1 (quit_tick_runs_to_its_end escape_handle_event idle_update idle_render
                  t [mkTick 16 []] sample_game escape_handle_event_keeps_running
                  (λ _ _, eq_refl) (λ _, eq_refl) Hcond Hquit)).
Defined.

(** * Properties of the build scripts *)

(** ** [clean_build] *)

(** One round of the directory loop and one of the file loop. *)
Lemma clean_dir_files (dir_name line : string) (sh : Shell) (p : string) :
  p ∈ files (if path_exists dir_name sh then sh_print line (rmtree dir_name sh) else sh)
  ↔ p ∈ files sh ∧ ¬ (dir_name ∈ files sh ∧ inside dir_name p).
Proof.
  unfold path_exists. case_bool_decide as Hdir; cbn [files sh_print rmtree].
  - rewrite elem_of_filter. tauto.
  - tauto.
Qed.

Lemma clean_file_files (file_name line : string) (sh : Shell) (p : string) :
  p ∈ files (if path_exists file_name sh then sh_print line (os_remove file_name sh) else sh)
  ↔ p ∈ files sh ∧ p ≠ file_name.
Proof.
  unfold path_exists. case_bool_decide as Hfile; cbn [files sh_print os_remove].
  - rewrite elem_of_difference, elem_of_singleton. tauto.
  - split; [|tauto]. intros Hin. split; [exact Hin|]. intros ->. exact (Hfile Hin).
Qed.

Lemma clean_build_files (sh : Shell) (p : string) :
  p ∈ files (BuildGame.clean_build sh)
  ↔ p ∈ files sh
    ∧ ¬ ("build" ∈ files sh ∧ inside "build" p)
    ∧ ¬ ("__pycache__" ∈ files sh ∧ inside "__pycache__" p)
    ∧ p ≠ "Dodging_Simulator.spec".
Proof.
  unfold BuildGame.clean_build, BuildGame.dirs_to_clean, BuildGame.files_to_clean.
  cbn [foldl]. rewrite clean_file_files, !clean_dir_files.
  assert (Hcache : ¬ inside "build" "__pycache__").
  { unfold inside. intros [H|H]; discriminate H. }
  tauto.
Qed.

Lemma inside_self (dir : string) : inside dir dir.
Proof. left. reflexivity. Qed.

(** X14: after [clean_build] neither [build], [__pycache__] nor
    [Dodging_Simulator.spec] exists, and nothing below a directory it removed
    is left; every other path is exactly as before, so the [dist] directory
    with the executable, the icon and the sources survive; no process is
    started. *)
Theorem clean_build_removes_only_artifacts (sh : Shell) :
  let sh' := BuildGame.clean_build sh in
  ("build" ∉ files sh') ∧ ("__pycache__" ∉ files sh')
  ∧ ("Dodging_Simulator.spec" ∉ files sh')
  ∧ (∀ dir p, dir ∈ ["build"; "__pycache__"] → dir ∈ files sh → inside dir p →
       p ∉ files sh')
  ∧ (∀ p, ¬ inside "build" p → ¬ inside "__pycache__" p →
       p ≠ "Dodging_Simulator.spec" → (p ∈ files sh' ↔ p ∈ files sh))
  ∧ files sh' ⊆ files sh
  ∧ launched sh' = launched sh.
Proof.
  cbv zeta. split; [|split; [|split; [|split; [|split; [|split]]]]].
  - rewrite clean_build_files. pose proof (inside_self "build"). tauto.
  - rewrite clean_build_files. pose proof (inside_self "__pycache__"). tauto.
  - rewrite clean_build_files. tauto.
  - intros dir p Hdir Hexists Hinside. rewrite clean_build_files.
    apply elem_of_cons in Hdir as [->|Hdir]; [tauto|].
    apply list_elem_of_singleton in Hdir as ->. tauto.
  - intros p Hbuild Hcache Hspec. rewrite clean_build_files. tauto.
  - intros p. rewrite clean_build_files. tauto.
  - unfold BuildGame.clean_build, BuildGame.dirs_to_clean, BuildGame.files_to_clean.
    cbn [foldl]. unfold path_exists. repeat case_bool_decide; reflexivity.
Qed.

(** X15: [clean_build] is idempotent: run on a directory it has just cleaned
    it finds nothing to remove, prints nothing and changes nothing. *)
Theorem clean_build_idempotent (sh : Shell) :
  BuildGame.clean_build (BuildGame.clean_build sh) = BuildGame.clean_build sh.
Proof.
  assert (Hbuild : "build" ∉ files (BuildGame.clean_build sh)).
  { rewrite clean_build_files. pose proof (inside_self "build"). tauto. }
  assert (Hcache : "__pycache__" ∉ files (BuildGame.clean_build sh)).
  { rewrite clean_build_files. pose proof (inside_self "__pycache__"). tauto. }
  assert (Hspec : "Dodging_Simulator.spec" ∉ files (BuildGame.clean_build sh)).
  { rewrite clean_build_files. tauto. }
  set (cleaned := BuildGame.clean_build sh) in *.
  unfold BuildGame.clean_build at 1.
  unfold BuildGame.dirs_to_clean, BuildGame.files_to_clean. cbn [foldl].
  unfold path_exists.
  rewrite (bool_decide_eq_false_2 _ Hbuild), (bool_decide_eq_false_2 _ Hcache),
    (bool_decide_eq_false_2 _ Hspec).
  reflexivity.
Qed.

(** ** [build_executable] *)

(** The icon script adds the two icon files at most. *)
Lemma icon_script_files (env : CreateIcon.Env) (sh : Shell) (p : string) :
  p ∈ files (CreateIcon.script env sh).1
  ↔ p ∈ files sh
    ∨ (CreateIcon.pygame_error env = None
       ∧ (p = "game_icon.png"
          ∨ (p = "game_icon.ico"
             ∧ CreateIcon.leaves_ico (CreateIcon.pillow env) = true))).
Proof.
  unfold CreateIcon.script.
  destruct env as [[e|] [| |e' [|]]];
    cbn [fst files sh_print sh_write CreateIcon.pygame_error CreateIcon.pillow
         CreateIcon.leaves_ico];
    rewrite ?elem_of_union, ?elem_of_singleton; intuition (subst; first [discriminate|congruence|auto]).
Qed.

(** The icon step adds the two icon files at most, and nothing when there is
    no script to run or pygame fails. *)
Lemma run_icon_script_files (tools : BuildGame.Tools) (sh : Shell) (p : string) :
  p ∈ files (BuildGame.run_icon_script tools sh)
  ↔ p ∈ files sh
    ∨ (path_exists "create_icon.py" sh = true
       ∧ CreateIcon.pygame_error (BuildGame.icon_env tools) = None
       ∧ (p = "game_icon.png"
          ∨ (p = "game_icon.ico"
             ∧ CreateIcon.leaves_ico (CreateIcon.pillow (BuildGame.icon_env tools))
               = true))).
Proof.
  unfold BuildGame.run_icon_script.
  assert (Hscript : path_exists "create_icon.py"
                      (sh_launch [BuildGame.python tools; "create_icon.py"] sh)
                    = path_exists "create_icon.py" sh) by reflexivity.
  rewrite Hscript.
  destruct (path_exists "create_icon.py" sh).
  - rewrite icon_script_files. cbn [files sh_launch]. intuition (subst; first [discriminate|congruence|auto]).
  - cbn [files sh_launch]. intuition (subst; first [discriminate|congruence|auto]).
Qed.

(** Its files depend on the files it finds only. *)
Lemma run_icon_script_files_same (tools : BuildGame.Tools) (sh sh' : Shell) :
  files sh' = files sh →
  files (BuildGame.run_icon_script tools sh') = files (BuildGame.run_icon_script tools sh).
Proof.
  intros Hsame. apply set_eq. intros p. rewrite !run_icon_script_files.
  unfold path_exists. rewrite Hsame. reflexivity.
Qed.

(** It starts one process and prints after what was printed. *)
Lemma run_icon_script_launched (tools : BuildGame.Tools) (sh : Shell) :
  launched (BuildGame.run_icon_script tools sh)
  = launched sh ++ [[BuildGame.python tools; "create_icon.py"]].
Proof.
  unfold BuildGame.run_icon_script, CreateIcon.script.
  destruct (path_exists _ _); [|reflexivity].
  destruct (BuildGame.icon_env tools) as [[e|] [| |e' [|]]]; reflexivity.
Qed.

Lemma run_icon_script_printed (tools : BuildGame.Tools) (sh : Shell) :
  ∃ shown, printed (BuildGame.run_icon_script tools sh) = printed sh ++ shown.
Proof.
  unfold BuildGame.run_icon_script, CreateIcon.script.
  destruct (path_exists _ _); [|exists []; rewrite app_nil_r; reflexivity].
  destruct (BuildGame.icon_env tools) as [[e|] [| |e' [|]]];
    unfold sh_print, sh_launch, sh_write;
    cbn [fst printed CreateIcon.pygame_error CreateIcon.pillow];
    rewrite <- ?app_assoc; first [eexists; reflexivity|exists []; apply eq_sym, app_nil_r].
Qed.

(** The working directory in which PyInstaller is started. *)
Lemma add_data_same (sh sh' : Shell) (cmd : list string) :
  (∀ d, d ∈ BuildGame.data_dirs → path_exists d sh' = path_exists d sh) →
  BuildGame.add_data sh' cmd = BuildGame.add_data sh cmd.
Proof.
  intros Hsame. unfold BuildGame.add_data, BuildGame.data_dirs in *. cbn [foldl].
  rewrite (Hsame "assets"), (Hsame "Dodging_Simulator"); [reflexivity| |].
  - apply elem_of_cons. right. apply elem_of_cons. left. reflexivity.
  - apply elem_of_cons. left. reflexivity.
Qed.

(** [build_executable], its steps named: the shell when PyInstaller is
    started and the command line it is started with. *)
Lemma build_executable_steps (tools : BuildGame.Tools) (sh : Shell) :
  let greeted := sh_print (string_times "=" 50)
                   (sh_print "🎮 Building Dodging Simulator..." sh) in
  let prepared :=
    if path_exists "game_icon.ico" sh then greeted
    else BuildGame.run_icon_script tools
           (sh_print "⚠️  Icon file not found. Creating icon first..." greeted) in
  let cmd := BuildGame.add_data sh BuildGame.base_cmd in
  let started :=
    sh_launch cmd
      (sh_print "" (sh_print ("Command: " +:+ String.concat " " cmd)
                      (sh_print "Running PyInstaller..." prepared))) in
  ∃ verdict,
    BuildGame.build_executable tools sh
    = (mkShell (BuildGame.pyinstaller tools cmd (files prepared)).2
         (printed started ++ verdict) (launched started),
       match (BuildGame.pyinstaller tools cmd (files prepared)).1 with
       | BuildGame.LaunchError e => Raised e
       | _ => Returned tt
       end)
    ∧ verdict
      = match (BuildGame.pyinstaller tools cmd (files prepared)).1 with
        | BuildGame.Completed =>
            [ "✅ Build successful!";
              "📁 Executable created at: ./dist/Dodging_Simulator.exe"; "";
              "🎉 Your game is ready!"; "You can now:";
              "1. Double-click 'Dodging_Simulator.exe' to play";
              "2. Share the .exe file with friends";
              "3. Move it to any Windows computer and it will run"; "";
              "💡 Tip: The executable contains everything needed to run the game!" ]
        | BuildGame.CalledProcessError stderr =>
            [ "❌ Build failed!"; "Error output:"; stderr; ""; "💡 Common solutions:";
              "1. Make sure PyInstaller is installed: pip install pyinstaller";
              "2. Check that start_screen.py exists and runs correctly";
              "3. Make sure all dependencies are installed" ]
        | BuildGame.LaunchError _ => []
        end.
Proof.
  cbv zeta. eexists. split; [|reflexivity].
  unfold BuildGame.build_executable.
  set (greeted := sh_print (string_times "=" 50)
                    (sh_print "🎮 Building Dodging Simulator..." sh)).
  assert (Hicon : path_exists "game_icon.ico" greeted = path_exists "game_icon.ico" sh)
    by reflexivity.
  rewrite Hicon.
  set (prepared := if negb (path_exists "game_icon.ico" sh) then _ else greeted).
  assert (Hprepared : prepared
            = if path_exists "game_icon.ico" sh then greeted
              else BuildGame.run_icon_script tools
                     (sh_print "⚠️  Icon file not found. Creating icon first..."
                        greeted)).
  { subst prepared. destruct (path_exists "game_icon.ico" sh); reflexivity. }
  assert (Hdata : BuildGame.add_data prepared BuildGame.base_cmd
                  = BuildGame.add_data sh BuildGame.base_cmd).
  { apply add_data_same. intros d Hd. rewrite Hprepared. unfold path_exists.
    apply bool_decide_ext.
    destruct (bool_decide ("game_icon.ico" ∈ files sh)); [reflexivity|].
    rewrite run_icon_script_files. cbn [files sh_launch sh_print].
    unfold BuildGame.data_dirs in Hd.
    apply elem_of_cons in Hd as [->|Hd];
      [|apply list_elem_of_singleton in Hd as ->];
      (split; [intros [?|(_ & _ & [?|[? _]])]; [assumption|discriminate|discriminate]
              |auto]). }
  rewrite Hdata, <- Hprepared. clear Hdata Hprepared Hicon. clearbody prepared.
  cbn [files printed launched sh_print sh_launch].
  destruct (BuildGame.pyinstaller tools (BuildGame.add_data sh BuildGame.base_cmd)
              (files prepared)) as [[|stderr|e] after];
    unfold sh_print, sh_launch; cbn [fst snd files printed launched];
    rewrite <- ?app_assoc; reflexivity.
Qed.

(** X16: [build_executable] starts PyInstaller exactly once, as the last
    process, with the nine fixed arguments followed by an [--add-data] pair
    for each of [assets] and [Dodging_Simulator] that exists, in that order, a
    directory that does not exist contributing nothing; before it, it starts
    the icon script, and only then, when [game_icon.ico] does not exist. *)
Theorem build_command_line (tools : BuildGame.Tools) (sh : Shell) :
  let cmd :=
    BuildGame.base_cmd
    ++ (if path_exists "assets" sh then ["--add-data"; "assets;assets"] else [])
    ++ (if path_exists "Dodging_Simulator" sh
        then ["--add-data"; "Dodging_Simulator;Dodging_Simulator"] else []) in
  launched (BuildGame.build_executable tools sh).1
  = launched sh
    ++ (if path_exists "game_icon.ico" sh then []
        else [[BuildGame.python tools; "create_icon.py"]])
    ++ [cmd]
  ∧ length cmd
    = (9 + (if path_exists "assets" sh then 2 else 0)
       + (if path_exists "Dodging_Simulator" sh then 2 else 0))%nat
  ∧ "--icon=game_icon.ico" ∈ cmd ∧ "game_main.py" ∈ cmd.
Proof.
  cbv zeta.
  destruct (build_executable_steps tools sh) as (verdict & -> & _).
  cbn [fst launched sh_launch sh_print].
  assert (Hcmd : BuildGame.add_data sh BuildGame.base_cmd
                 = BuildGame.base_cmd
                   ++ (if path_exists "assets" sh then ["--add-data"; "assets;assets"]
                       else [])
                   ++ (if path_exists "Dodging_Simulator" sh
                       then ["--add-data"; "Dodging_Simulator;Dodging_Simulator"]
                       else [])).
  { unfold BuildGame.add_data, BuildGame.data_dirs. cbn [foldl].
    destruct (path_exists "assets" sh), (path_exists "Dodging_Simulator" sh);
      reflexivity. }
  rewrite Hcmd. split; [|split; [|split]].
  - destruct (path_exists "game_icon.ico" sh).
    + reflexivity.
    + rewrite run_icon_script_launched. cbn [launched sh_launch sh_print].
      rewrite <- app_assoc. reflexivity.
  - rewrite !length_app.
    destruct (path_exists "assets" sh), (path_exists "Dodging_Simulator" sh);
      reflexivity.
  - apply elem_of_app. left. unfold BuildGame.base_cmd.
    do 3 (apply elem_of_cons; right). apply elem_of_cons. left. reflexivity.
  - apply elem_of_app. left. unfold BuildGame.base_cmd.
    do 8 (apply elem_of_cons; right). apply elem_of_cons. left. reflexivity.
Qed.

(** X17: how a build ends.  When PyInstaller exits with status 0 the function
    returns and the last lines printed are the success message; when it exits
    with another status ([CalledProcessError]) the function still returns
    normally, the last lines being the failure message with PyInstaller's
    standard error as its third line; when PyInstaller cannot be started the
    exception leaves [build_executable] and nothing is printed after the
    command line.  The working directory is what PyInstaller left. *)
Theorem build_executable_outcomes (tools : BuildGame.Tools) (sh : Shell) :
  let cmd := BuildGame.add_data sh BuildGame.base_cmd in
  let fs := if path_exists "game_icon.ico" sh then files sh
            else files (BuildGame.run_icon_script tools sh) in
  let r := BuildGame.build_executable tools sh in
  files r.1 = (BuildGame.pyinstaller tools cmd fs).2
  ∧ ∃ head shown,
      shown = head ++ [ "Running PyInstaller...";
                        "Command: " +:+ String.concat " " cmd; "" ]
      ∧ match (BuildGame.pyinstaller tools cmd fs).1 with
        | BuildGame.Completed =>
            r.2 = Returned tt
            ∧ printed r.1
              = printed sh ++ shown
                ++ [ "✅ Build successful!";
                     "📁 Executable created at: ./dist/Dodging_Simulator.exe"; "";
                     "🎉 Your game is ready!"; "You can now:";
                     "1. Double-click 'Dodging_Simulator.exe' to play";
                     "2. Share the .exe file with friends";
                     "3. Move it to any Windows computer and it will run"; "";
                     "💡 Tip: The executable contains everything needed to run the game!" ]
        | BuildGame.CalledProcessError stderr =>
            r.2 = Returned tt
            ∧ printed r.1
              = printed sh ++ shown
                ++ [ "❌ Build failed!"; "Error output:"; stderr; "";
                     "💡 Common solutions:";
                     "1. Make sure PyInstaller is installed: pip install pyinstaller";
                     "2. Check that start_screen.py exists and runs correctly";
                     "3. Make sure all dependencies are installed" ]
        | BuildGame.LaunchError e =>
            r.2 = Raised e ∧ printed r.1 = printed sh ++ shown
        end.
Proof.
  cbv zeta.
  destruct (build_executable_steps tools sh) as (verdict & -> & Hverdict).
  cbn [fst snd files printed launched sh_launch sh_print] in *.
  set (greeted := sh_print (string_times "=" 50)
                    (sh_print "🎮 Building Dodging Simulator..." sh)) in *.
  set (warned := sh_print "⚠️  Icon file not found. Creating icon first..." greeted)
    in *.
  assert (Hfs : files (if path_exists "game_icon.ico" sh then greeted
                       else BuildGame.run_icon_script tools warned)
                = if path_exists "game_icon.ico" sh then files sh
                  else files (BuildGame.run_icon_script tools sh)).
  { destruct (path_exists "game_icon.ico" sh); [reflexivity|].
    apply run_icon_script_files_same. reflexivity. }
  rewrite Hfs in *. split; [reflexivity|].
  assert (Hhead : ∃ head,
            printed (if path_exists "game_icon.ico" sh then greeted
                     else BuildGame.run_icon_script tools warned)
            = printed sh ++ head).
  { destruct (path_exists "game_icon.ico" sh).
    - subst greeted. unfold sh_print. cbn [printed]. rewrite <- !app_assoc.
      eexists. reflexivity.
    - destruct (run_icon_script_printed tools warned) as (shown & ->).
      subst warned greeted. unfold sh_print. cbn [printed]. rewrite <- !app_assoc.
      eexists. reflexivity. }
  destruct Hhead as (head & Hprinted).
  exists head, (head ++ [ "Running PyInstaller...";
                          "Command: " +:+ String.concat " "
                                            (BuildGame.add_data sh BuildGame.base_cmd);
                          "" ]).
  split; [reflexivity|].
  rewrite Hprinted.
  destruct (BuildGame.pyinstaller tools _ _).1; rewrite Hverdict;
    (split; [reflexivity|]); rewrite <- ?app_assoc, ?app_nil_r; reflexivity.
Qed.

(** The working directory PyInstaller is started in and leaves behind. *)
Lemma build_executable_files (tools : BuildGame.Tools) (sh : Shell) :
  files (BuildGame.build_executable tools sh).1
  = (BuildGame.pyinstaller tools (BuildGame.add_data sh BuildGame.base_cmd)
       (if path_exists "game_icon.ico" sh then files sh
        else files (BuildGame.run_icon_script tools sh))).2.
Proof.
  destruct (build_executable_steps tools sh) as (verdict & -> & _).
  cbn [fst files]. f_equal. f_equal.
  destruct (path_exists "game_icon.ico" sh); [reflexivity|].
  apply run_icon_script_files_same. reflexivity.
Qed.

(** X18: when [game_icon.ico] is missing, [build_executable] starts the icon
    script and goes on whatever becomes of it.  The directory PyInstaller is
    then started in holds what it held before and, when [create_icon.py]
    exists and pygame works, [game_icon.png]; it holds [game_icon.ico] only
    if, on top of that, the Pillow conversion wrote the file.  The command
    line names [--icon=game_icon.ico] in every case: with the script missing
    or failed, or without Pillow, the build is started with an icon file that
    does not exist. *)
Theorem build_icon_may_be_missing (tools : BuildGame.Tools) (sh : Shell) :
  path_exists "game_icon.ico" sh = false →
  let cmd := BuildGame.add_data sh BuildGame.base_cmd in
  let env := BuildGame.icon_env tools in
  let fs := files (BuildGame.run_icon_script tools sh) in
  files (BuildGame.build_executable tools sh).1 = (BuildGame.pyinstaller tools cmd fs).2
  ∧ files sh ⊆ fs
  ∧ (∀ p, p ∈ fs → (p ∉ files sh) → p = "game_icon.png" ∨ p = "game_icon.ico")
  ∧ ("game_icon.png" ∈ fs
     ↔ "game_icon.png" ∈ files sh
       ∨ (path_exists "create_icon.py" sh = true ∧ CreateIcon.pygame_error env = None))
  ∧ ("game_icon.ico" ∈ fs
     ↔ path_exists "create_icon.py" sh = true
       ∧ CreateIcon.pygame_error env = None
       ∧ CreateIcon.leaves_ico (CreateIcon.pillow env) = true)
  ∧ "--icon=game_icon.ico" ∈ cmd.
Proof.
  intros Hmissing. cbv zeta.
  assert (Hico : "game_icon.ico" ∉ files sh)
    by (apply bool_decide_eq_false_1 in Hmissing; exact Hmissing).
  split; [rewrite build_executable_files, Hmissing; reflexivity|].
  split; [intros p Hp; rewrite run_icon_script_files; auto|].
  split; [intros p Hp Hnew; apply run_icon_script_files in Hp; intuition (subst; first [discriminate|congruence|auto])|].
  split; [rewrite run_icon_script_files; intuition (subst; first [discriminate|congruence|auto])|].
  split; [rewrite run_icon_script_files; intuition (subst; first [discriminate|congruence|auto])|].
  unfold BuildGame.add_data, BuildGame.data_dirs. cbn [foldl].
  assert (Hbase : "--icon=game_icon.ico" ∈ BuildGame.base_cmd).
  { unfold BuildGame.base_cmd.
    do 3 (apply elem_of_cons; right). apply elem_of_cons. left. reflexivity. }
  destruct (path_exists "assets" sh), (path_exists "Dodging_Simulator" sh);
    rewrite ?elem_of_app; auto.
Qed.

Lemma build_icon_may_be_missing_witness :
  path_exists "game_icon.ico" sample_shell_no_icon_script = false
  ∧ ("game_icon.ico" ∉ files (BuildGame.run_icon_script sample_tools_ok
                                 sample_shell_no_icon_script))
  ∧ "--icon=game_icon.ico"
    ∈ BuildGame.add_data sample_shell_no_icon_script BuildGame.base_cmd.
Proof.
  assert (Hmissing : path_exists "game_icon.ico" sample_shell_no_icon_script = false)
    by (vm_compute; reflexivity).
  split; [exact Hmissing|].
  destruct (build_icon_may_be_missing sample_tools_ok sample_shell_no_icon_script
              Hmissing) as (_ & _ & _ & _ & Hico & Hcmd).
  split; [|exact Hcmd].
  intros Hin. apply Hico in Hin as (Hscript & _). vm_compute in Hscript.
  discriminate Hscript.
Defined.

(** ** The [__main__] block of [build_game.py] *)

(** X19: started with [clean] as its first argument the script only cleans:
    it starts no process, asks nothing, and what it does depends neither on
    the tools installed nor on any answer. *)
Theorem script_main_clean_only (tools : BuildGame.Tools) (argv : list string)
    (answer : string) (sh : Shell) :
  argv !! 1%nat = Some "clean" →
  BuildGame.script_main tools argv answer sh
  = (BuildGame.clean_build
       (sh_print (string_times "=" 40) (sh_print "Dodging Simulator - Build Script" sh)),
     Returned tt)
  ∧ launched (BuildGame.script_main tools argv answer sh).1 = launched sh
  ∧ ("build" ∉ files (BuildGame.script_main tools argv answer sh).1).
Proof.
  intros Hclean.
  assert (Hmain : BuildGame.script_main tools argv answer sh
                  = (BuildGame.clean_build
                       (sh_print (string_times "=" 40)
                          (sh_print "Dodging Simulator - Build Script" sh)),
                     Returned tt)).
  { unfold BuildGame.script_main.
    rewrite (bool_decide_eq_true_2 _ Hclean).
    rewrite bool_decide_eq_true_2; [reflexivity|].
    apply lookup_lt_Some in Hclean. exact Hclean. }
  rewrite Hmain. split; [reflexivity|]. cbn [fst]. split.
  - unfold BuildGame.clean_build, BuildGame.dirs_to_clean, BuildGame.files_to_clean.
    cbn [foldl]. unfold path_exists. repeat case_bool_decide; reflexivity.
  - rewrite clean_build_files. pose proof (inside_self "build"). tauto.
Qed.

Lemma script_main_clean_only_witness :
  ["build_game.py"; "clean"] !! 1%nat = Some "clean"
  ∧ launched (BuildGame.script_main sample_tools_ok ["build_game.py"; "clean"] ""
                sample_shell_built).1 = launched sample_shell_built.
Proof.
  split; [reflexivity|].
  apply (script_main_clean_only sample_tools_ok ["build_game.py"; "clean"] ""
           sample_shell_built eq_refl).
Defined.

(** X20: started without [clean] the script builds first.  If PyInstaller
    cannot be started the exception ends the script: the clean-up question is
    never asked and nothing is removed.  Otherwise, after a successful and
    after a failed build alike, the question is asked, and exactly the answers
    [y] and [yes] clean up, which leaves no [build] directory behind. *)
Theorem script_main_build_then_ask (tools : BuildGame.Tools) (argv : list string)
    (answer : string) (sh : Shell) :
  argv !! 1%nat ≠ Some "clean" →
  let start := sh_print (string_times "=" 40)
                 (sh_print "Dodging Simulator - Build Script" sh) in
  let built := BuildGame.build_executable tools start in
  let asked := sh_print (newline +:+ "🧹 Clean up build files? (y/n): ") built.1 in
  let r := BuildGame.script_main tools argv answer sh in
  (∀ e, built.2 = Raised e → r = (built.1, Raised e))
  ∧ (built.2 = Returned tt →
     r.2 = Returned tt
     ∧ ((answer = "y" ∨ answer = "yes") →
        r.1 = sh_print "✨ All clean!" (BuildGame.clean_build asked)
        ∧ "build" ∉ files r.1)
     ∧ (answer ≠ "y" → answer ≠ "yes" → r.1 = asked)).
Proof.
  intros Hbuild. cbv zeta. unfold BuildGame.script_main.
  rewrite (bool_decide_eq_false_2 _ Hbuild), andb_false_r.
  destruct (BuildGame.build_executable tools _) as [after [[]|e']]; cbn [fst snd].
  - split; [intros e He; discriminate He|]. intros _.
    destruct (bool_decide (answer ∈ ["y"; "yes"])) eqn:Hanswer.
    + split; [reflexivity|]. split.
      * intros _. split; [reflexivity|]. cbn [fst files sh_print].
        rewrite clean_build_files. pose proof (inside_self "build"). tauto.
      * intros Hy Hyes. apply bool_decide_eq_true_1 in Hanswer.
        apply elem_of_cons in Hanswer as [?|Hanswer]; [contradiction|].
        apply list_elem_of_singleton in Hanswer. contradiction.
    + split; [reflexivity|]. split; [|reflexivity].
      intros Hyes. apply bool_decide_eq_false_1 in Hanswer. destruct Hanswer.
      destruct Hyes as [->| ->].
      * apply elem_of_cons. left. reflexivity.
      * apply elem_of_cons. right. apply elem_of_cons. left. reflexivity.
  - split; [intros e [= ->]; reflexivity|]. intros H. discriminate H.
Qed.

Lemma script_main_build_then_ask_witness :
  ["build_game.py"] !! 1%nat ≠ Some "clean"
  ∧ BuildGame.script_main sample_tools_no_pyinstaller ["build_game.py"] "y" sample_shell
    = ((BuildGame.build_executable sample_tools_no_pyinstaller
          (sh_print (string_times "=" 40)
             (sh_print "Dodging Simulator - Build Script" sample_shell))).1,
       Raised (FileNotFoundError "pyinstaller")).
Proof.
  assert (Hargv : ["build_game.py"] !! 1%nat ≠ Some "clean") by discriminate.
  split; [exact Hargv|].
  apply (proj1 (script_main_build_then_ask sample_tools_no_pyinstaller ["build_game.py"]
                  "y" sample_shell Hargv)).
  vm_compute. reflexivity.
Defined.
